(** * js_env: the watch filter, the event handler and the command dispatcher

    A shallow embedding of [js_env.py].  Python strings are [string]s,
    the rule lists of [Configuration] are [list string], the parsed
    configuration file is a pair of finite maps, exceptions are the
    [Raise] results of a small error type, and printing and process
    spawning are recorded in an explicit [world].

    What is not code of [js_env.py] is taken as a parameter: the regular
    expression engine behind [re.findall], [shlex.split], the exit status
    of a spawned process, [os.path.isfile] and [os.path.abspath], and,
    for [which], [get_watched] and [parse_options], the functions of
    [os.path], [os.listdir], [glob], the environment and [str] on a
    list. *)

From Stdlib Require Import String Ascii List ZArith Bool Lia.
From stdpp Require Import gmap strings.
Import ListNotations.
Local Open Scope string_scope.

(** ** Exceptions *)

Inductive pyexn : Type :=
| AssertionError
| KeyError (key : string)
| ValueError
| ReError.

Inductive result (A : Type) : Type :=
| Ok (a : A)
| Raise (e : pyexn).
Arguments Ok {A} a.
Arguments Raise {A} e.

Definition rbind {A B} (r : result A) (k : A -> result B) : result B :=
  match r with
  | Ok a => k a
  | Raise e => Raise e
  end.

(** ** Python string methods used by the program *)

Module PyStr.

(** [s.startswith(pre)] *)
Definition startswith (s pre : string) : bool := String.prefix pre s.

(** [s.endswith(suf)]: some suffix of [s] is [suf]. *)
Fixpoint endswith (s suf : string) : bool :=
  String.eqb s suf ||
  match s with
  | EmptyString => false
  | String _ s' => endswith s' suf
  end.

(** [sub in s]: [sub] starts at some position of [s]. *)
Fixpoint contains (s sub : string) : bool :=
  String.prefix sub s ||
  match s with
  | EmptyString => false
  | String _ s' => contains s' sub
  end.

(** [s.replace(old, new)]: the occurrences of [old] are found from left
    to right and do not overlap; [skip] counts the characters of an
    occurrence still to pass over.  An empty [old] matches before every
    character and at the end. *)
Fixpoint replace_from (old new : string) (skip : nat) (s : string) : string :=
  match skip with
  | S k =>
      match s with
      | EmptyString => EmptyString
      | String _ s' => replace_from old new k s'
      end
  | O =>
      match s with
      | EmptyString => if String.eqb old EmptyString then new else EmptyString
      | String c s' =>
          if String.prefix old s then
            match old with
            | EmptyString => new ++ String c (replace_from old new 0 s')
            | String _ old' => new ++ replace_from old new (String.length old') s'
            end
          else String c (replace_from old new 0 s')
      end
  end.

Definition replace (s old new : string) : string := replace_from old new 0 s.

End PyStr.

(** ** The configuration file, as [configparser] holds it

    [optionxform = str] keeps keys case sensitive, so keys are compared as
    they are.  A value is the string that reading the option returns. *)

Record ConfigParser : Type := {
  cp_defaults : gmap string string;
  cp_sections : gmap string (gmap string string)
}.

Definition default_section : string := "DEFAULT".

Definition has_section (cp : ConfigParser) (section : string) : bool :=
  match cp_sections cp !! section with
  | Some _ => true
  | None => false
  end.

(** [section in conf] *)
Definition conf_contains (cp : ConfigParser) (section : string) : bool :=
  String.eqb section default_section || has_section cp section.

(** [option in conf[section]], for a section other than the default one *)
Definition has_option (cp : ConfigParser) (section option : string) : bool :=
  match cp_sections cp !! section with
  | None => false
  | Some d =>
      match d !! option, cp_defaults cp !! option with
      | None, None => false
      | _, _ => true
      end
  end.

(** [conf[section][option]] *)
Definition conf_get (cp : ConfigParser) (section option : string) : result string :=
  if conf_contains cp section then
    match cp_sections cp !! section with
    | None =>
        match cp_defaults cp !! option with
        | Some v => Ok v
        | None => Raise (KeyError option)
        end
    | Some d =>
        match d !! option, cp_defaults cp !! option with
        | Some v, _ => Ok v
        | None, Some v => Ok v
        | None, None => Raise (KeyError option)
        end
    end
  else Raise (KeyError section).

(** ** class Configuration *)

Record Configuration : Type := {
  _conf : ConfigParser;
  _excluded_regex : list string;
  _excluded_extensions : list string;
  _included_extensions : list string;
  _excluded_files : list string;
  _excluded_folders : list string;
  _commands : list string
}.

(** [Configuration.__init__], from the parsed [.js_env_config]. *)
Definition Configuration_init (conf : ConfigParser) : result Configuration :=
  let self := {| _conf := conf;
                 _excluded_regex := [];
                 _excluded_extensions := [];
                 _included_extensions := [];
                 _excluded_files := [];
                 _excluded_folders := ["node_modules"];
                 _commands := ["build"; "serve"; "start"; "test"] |} in
  if negb (conf_contains conf "commands") then Raise AssertionError
  else if negb (conf_contains conf "server") then Raise AssertionError
  else if negb (forallb (fun c => has_option conf "commands" c) (_commands self))
  then Raise AssertionError
  else Ok self.

Definition server_port (self : Configuration) : result string :=
  conf_get (_conf self) "server" "port".
Definition build_command (self : Configuration) : result string :=
  conf_get (_conf self) "commands" "build".
Definition test_command (self : Configuration) : result string :=
  conf_get (_conf self) "commands" "test".
Definition run_command (self : Configuration) : result string :=
  conf_get (_conf self) "commands" "run".
Definition start_command (self : Configuration) : result string :=
  conf_get (_conf self) "commands" "start".
Definition serve_command (self : Configuration) : result string :=
  conf_get (_conf self) "commands" "serve".

Definition set_included_extensions (self : Configuration) (l : list string) : Configuration :=
  {| _conf := _conf self; _excluded_regex := _excluded_regex self;
     _excluded_extensions := _excluded_extensions self;
     _included_extensions := l;
     _excluded_files := _excluded_files self;
     _excluded_folders := _excluded_folders self;
     _commands := _commands self |}.

Definition set_excluded_extensions (self : Configuration) (l : list string) : Configuration :=
  {| _conf := _conf self; _excluded_regex := _excluded_regex self;
     _excluded_extensions := l;
     _included_extensions := _included_extensions self;
     _excluded_files := _excluded_files self;
     _excluded_folders := _excluded_folders self;
     _commands := _commands self |}.

Definition set_excluded_regex (self : Configuration) (l : list string) : Configuration :=
  {| _conf := _conf self; _excluded_regex := l;
     _excluded_extensions := _excluded_extensions self;
     _included_extensions := _included_extensions self;
     _excluded_files := _excluded_files self;
     _excluded_folders := _excluded_folders self;
     _commands := _commands self |}.

Definition set_excluded_files (self : Configuration) (l : list string) : Configuration :=
  {| _conf := _conf self; _excluded_regex := _excluded_regex self;
     _excluded_extensions := _excluded_extensions self;
     _included_extensions := _included_extensions self;
     _excluded_files := l;
     _excluded_folders := _excluded_folders self;
     _commands := _commands self |}.

Definition set_excluded_folders (self : Configuration) (l : list string) : Configuration :=
  {| _conf := _conf self; _excluded_regex := _excluded_regex self;
     _excluded_extensions := _excluded_extensions self;
     _included_extensions := _included_extensions self;
     _excluded_files := _excluded_files self;
     _excluded_folders := l;
     _commands := _commands self |}.

(** ** The regular expression engine

    [re.findall(regex, s)] compiles [regex], which raises [re.error] on a
    string that is not a regular expression, and lists the matches. *)

Record ReEngine : Type := {
  Pattern : Type;
  re_compile : string -> option Pattern;
  pattern_findall : Pattern -> string -> list string
}.

Definition re_findall (re : ReEngine) (regex s : string) : result (list string) :=
  match re_compile re regex with
  | Some c => Ok (pattern_findall re c s)
  | None => Raise ReError
  end.

(** Truth value of a list in an [if]. *)
Definition truthy {A} (l : list A) : bool :=
  match l with
  | [] => false
  | _ :: _ => true
  end.

(** A [for] loop whose body may raise. *)
Fixpoint for_each {A S} (l : list A) (s : S) (body : S -> A -> result S) : result S :=
  match l with
  | [] => Ok s
  | x :: l' => rbind (body s x) (fun s' => for_each l' s' body)
  end.

(** [Configuration.is_watched] *)
Definition is_watched (re : ReEngine) (self : Configuration) (filepath : string)
  : result bool :=
  let watched := false in
  let watched :=
    fold_left (fun watched ext => if PyStr.endswith filepath ext then true else watched)
              (_included_extensions self) watched in
  let watched :=
    fold_left (fun watched ext => if PyStr.endswith filepath ext then false else watched)
              (_excluded_extensions self) watched in
  let watched :=
    fold_left (fun watched folder => if PyStr.contains filepath folder then false else watched)
              (_excluded_folders self) watched in
  let watched :=
    fold_left (fun watched fn => if PyStr.contains filepath fn then false else watched)
              (_excluded_files self) watched in
  for_each (_excluded_regex self) watched
           (fun watched regex =>
              rbind (re_findall re regex filepath)
                    (fun found => Ok (if truthy found then false else watched))).

(** A regular expression engine for the strings without metacharacters:
    such a string matches itself, and [findall] lists its occurrences
    from left to right without overlap (an empty pattern matches at every
    position).  Other strings are outside this engine and do not compile
    in it. *)
Module Literal.

Definition metachars : list ascii :=
  list_ascii_of_string ".^$*+?{}[]\|()".

Fixpoint is_literal (regex : string) : bool :=
  match regex with
  | EmptyString => true
  | String c regex' =>
      negb (existsb (Ascii.eqb c) metachars) && is_literal regex'
  end.

Fixpoint findall_from (pat : string) (skip : nat) (s : string) : list string :=
  match skip with
  | S k =>
      match s with
      | EmptyString => []
      | String _ s' => findall_from pat k s'
      end
  | O =>
      match s with
      | EmptyString => if String.eqb pat EmptyString then [pat] else []
      | String _ s' =>
          if String.prefix pat s
          then pat :: findall_from pat (Nat.pred (String.length pat)) s'
          else findall_from pat 0 s'
      end
  end.

Definition engine : ReEngine :=
  {| Pattern := string;
     re_compile := fun regex => if is_literal regex then Some regex else None;
     pattern_findall := fun pat s => findall_from pat 0 s |}.

End Literal.

(** ** The host: what the program asks of the operating system *)

(** The first argument of [subprocess.run]: a command string or an
    argument list. *)
Inductive popen_args : Type :=
| ArgStr (cmd : string)
| ArgList (argv : list string).

Record CompletedProcess : Type := {
  cp_args : popen_args;
  returncode : Z
}.

Record Host : Type := {
  (** [shlex.split]; [None] where it raises [ValueError] *)
  shlex_split : string -> option (list string);
  (** the status with which the shell run on these arguments exits *)
  exit_status : popen_args -> Z;
  (** [os.path.isfile] *)
  isfile : string -> bool;
  (** [os.path.abspath] *)
  abspath : string -> string
}.

(** What the program has done so far: the lines printed and the processes
    run with [shell=True], oldest first. *)
Record world : Type := {
  stdout : list string;
  spawned : list CompletedProcess
}.

Definition world0 : world := {| stdout := []; spawned := [] |}.

(** ** State and exceptions *)

Definition M (A : Type) : Type := world -> result A * world.

Definition ret {A} (a : A) : M A := fun w => (Ok a, w).

Definition bind {A B} (m : M A) (k : A -> M B) : M B :=
  fun w =>
    match m w with
    | (Ok a, w') => k a w'
    | (Raise e, w') => (Raise e, w')
    end.

Definition lift {A} (r : result A) : M A := fun w => (r, w).

Notation "x <- m ;; k" := (bind m (fun x => k))
  (at level 62, m at next level, right associativity).
Notation "m ;;; k" := (bind m (fun _ => k))
  (at level 62, right associativity).

Definition print (line : string) : M unit :=
  fun w => (Ok tt, {| stdout := stdout w ++ [line]; spawned := spawned w |}).

(** [subprocess.run(args, shell=True)]: waits for the shell and returns
    the completed process; a non-zero status raises nothing, as [check]
    is not set. *)
Definition subprocess_run (host : Host) (args : popen_args) : M CompletedProcess :=
  fun w =>
    let p := {| cp_args := args; returncode := exit_status host args |} in
    (Ok p, {| stdout := stdout w; spawned := spawned w ++ [p] |}).

Definition py_shlex_split (host : Host) (s : string) : M (list string) :=
  match shlex_split host s with
  | Some l => ret l
  | None => lift (Raise ValueError)
  end.

(** Truth value of a string in an [if]. *)
Definition nonempty (s : string) : bool :=
  match s with
  | EmptyString => false
  | String _ _ => true
  end.

Definition dquote : string := String "034"%char EmptyString.

(** ** The actions *)

Section Actions.

Variable host : Host.
Variable config : Configuration.

Definition build : M string :=
  cmd <- lift (build_command config) ;;
  print ("Running build" ++ " " ++ cmd) ;;;
  cmd <- lift (build_command config) ;;
  (if nonempty cmd then
     cmd <- lift (build_command config) ;;
     subprocess_run host (ArgStr cmd) ;;; ret tt
   else ret tt) ;;;
  ret "Building".

Definition test : M string :=
  print ("Running " ++ dquote ++ "test" ++ dquote) ;;;
  cmd <- lift (test_command config) ;;
  (if nonempty cmd then
     cmd <- lift (test_command config) ;;
     argv <- py_shlex_split host cmd ;;
     subprocess_run host (ArgList argv) ;;; ret tt
   else ret tt) ;;;
  ret "Testing".

Definition start : M string :=
  print ("Running " ++ dquote ++ "start" ++ dquote) ;;;
  cmd <- lift (start_command config) ;;
  (if nonempty cmd then
     cmd <- lift (start_command config) ;;
     argv <- py_shlex_split host cmd ;;
     subprocess_run host (ArgList argv) ;;; ret tt
   else ret tt) ;;;
  ret "Starting".

Definition run : M string :=
  print ("Running " ++ dquote ++ "run" ++ dquote) ;;;
  cmd <- lift (run_command config) ;;
  (if nonempty cmd then
     cmd <- lift (run_command config) ;;
     argv <- py_shlex_split host cmd ;;
     subprocess_run host (ArgList argv) ;;; ret tt
   else ret tt) ;;;
  ret "Running".

Definition serve : M string :=
  print ("Running " ++ dquote ++ "serve" ++ dquote) ;;;
  cmd <- lift (run_command config) ;;
  (if nonempty cmd then
     cmd <- lift (serve_command config) ;;
     subprocess_run host (ArgStr cmd) ;;; ret tt
   else ret tt) ;;;
  ret "Serving".

(** The routes of the control surface: [/build] answers [build()], and
    so on. *)
Inductive action : Type := Build | Test | Run | Start | Serve.

Definition trigger (a : action) : M string :=
  match a with
  | Build => build
  | Test => test
  | Run => run
  | Start => start
  | Serve => serve
  end.

Definition status_label (a : action) : string :=
  match a with
  | Build => "Building"
  | Test => "Testing"
  | Run => "Running"
  | Start => "Starting"
  | Serve => "Serving"
  end.

(** The command string configured for an action. *)
Definition command_of (a : action) : result string :=
  match a with
  | Build => build_command config
  | Test => test_command config
  | Run => run_command config
  | Start => start_command config
  | Serve => serve_command config
  end.

End Actions.

(** ** class ChangeHandler *)

Record ChangeHandler : Type := {
  root : string;
  config : Configuration
}.

(** The path of an event relative to the watched root [abs_root], as
    [_build_if_watched] computes it: [pwd] is the root with a slash, the
    path must contain it, and its occurrences are removed. *)
Definition normalize (filepath abs_root : string) : result string :=
  let pwd := abs_root ++ "/" in
  if PyStr.contains filepath pwd
  then Ok (PyStr.replace filepath pwd "")
  else Raise AssertionError.

Section Handler.

Variable re : ReEngine.
Variable host : Host.
Variable self : ChangeHandler.

Definition _build_if_watched (filepath : string) : M unit :=
  if isfile host filepath then
    filepath <- lift (normalize filepath (abspath host (root self))) ;;
    watched <- lift (is_watched re (config self) filepath) ;;
    if (watched : bool) then
      print ("file " ++ filepath ++ " is watched") ;;;
      build host (config self) ;;; ret tt
    else ret tt
  else ret tt.

Definition on_created (src_path : string) : M unit :=
  print ("file " ++ src_path ++ " created") ;;;
  _build_if_watched src_path.

Definition on_modified (src_path : string) : M unit :=
  print ("file " ++ src_path ++ " modified") ;;;
  _build_if_watched src_path.

Definition on_deleted (src_path : string) : M unit :=
  print ("file " ++ src_path ++ " deleted") ;;;
  _build_if_watched src_path.

End Handler.

(** ** The module body

    [config = Configuration()] runs when the module is loaded, before
    [main()], which starts the listener and the server; [main] is the
    rest of the program, whatever it does with the configuration. *)
Definition module_body (conf : ConfigParser) (main : Configuration -> M unit) : M unit :=
  config <- lift (Configuration_init conf) ;;
  main config.

(** ** What the claims about the classifier speak of *)

Section ClassifierSpec.

Variable re : ReEngine.

(** The regular expression [regex] compiles. *)
Definition compiles (regex : string) : bool :=
  match re_compile re regex with
  | Some _ => true
  | None => false
  end.

(** Every excluded pattern of the rule set is a regular expression. *)
Definition patterns_compile (self : Configuration) : Prop :=
  forallb compiles (_excluded_regex self) = true.

(** [re.findall(regex, p)] is a non-empty list. *)
Definition regex_hits (p regex : string) : bool :=
  match re_compile re regex with
  | Some c => truthy (pattern_findall re c p)
  | None => false
  end.

(** The path matches an inclusion rule. *)
Definition matches_inclusion (self : Configuration) (p : string) : Prop :=
  exists ext, In ext (_included_extensions self) /\ PyStr.endswith p ext = true.

(** The path matches an exclusion rule of one of the four categories. *)
Definition matches_exclusion (self : Configuration) (p : string) : Prop :=
  (exists ext, In ext (_excluded_extensions self) /\ PyStr.endswith p ext = true) \/
  (exists folder, In folder (_excluded_folders self) /\ PyStr.contains p folder = true) \/
  (exists fn, In fn (_excluded_files self) /\ PyStr.contains p fn = true) \/
  (exists regex found, In regex (_excluded_regex self) /\
                       re_findall re regex p = Ok found /\ found <> []).

(** The decision of the five passes, when no pattern raises. *)
Definition decision (self : Configuration) (p : string) : bool :=
  existsb (PyStr.endswith p) (_included_extensions self)
  && negb (existsb (PyStr.endswith p) (_excluded_extensions self))
  && negb (existsb (PyStr.contains p) (_excluded_folders self))
  && negb (existsb (PyStr.contains p) (_excluded_files self))
  && negb (existsb (regex_hits p) (_excluded_regex self)).

End ClassifierSpec.

(** [r'] has the rules of [r] and more included extensions. *)
Definition adds_inclusions (r r' : Configuration) : Prop :=
  incl (_included_extensions r) (_included_extensions r') /\
  _excluded_extensions r' = _excluded_extensions r /\
  _excluded_folders r' = _excluded_folders r /\
  _excluded_files r' = _excluded_files r /\
  _excluded_regex r' = _excluded_regex r.

(** [r'] has the rules of [r] and more entries in the exclusion lists. *)
Definition adds_exclusions (r r' : Configuration) : Prop :=
  _included_extensions r' = _included_extensions r /\
  incl (_excluded_extensions r) (_excluded_extensions r') /\
  incl (_excluded_folders r) (_excluded_folders r') /\
  incl (_excluded_files r) (_excluded_files r') /\
  incl (_excluded_regex r) (_excluded_regex r').

(** ** Sample hosts and configurations *)

(** [shlex.split] on the strings without quotes and backslashes, where it
    splits at white space; other strings are outside this fragment. *)
Module Shlex.

Definition is_space (c : ascii) : bool :=
  existsb (Ascii.eqb c) [" "%char; "009"%char; "010"%char; "013"%char].

Definition is_special (c : ascii) : bool :=
  existsb (Ascii.eqb c) ["'"%char; "034"%char; "\"%char].

Fixpoint words (s cur : string) : list string :=
  match s with
  | EmptyString => if nonempty cur then [cur] else []
  | String c s' =>
      if is_space c
      then (if nonempty cur then cur :: words s' EmptyString else words s' EmptyString)
      else words s' (cur ++ String c EmptyString)
  end.

Definition split (s : string) : option (list string) :=
  if existsb is_special (list_ascii_of_string s) then None
  else Some (words s EmptyString).

End Shlex.

(** A host on which every command exits with [status], the files of
    [files] exist, and the working directory is [/proj]. *)
Definition sample_host (status : Z) (files : list string) : Host :=
  {| shlex_split := Shlex.split;
     exit_status := fun _ => status;
     isfile := fun p => existsb (String.eqb p) files;
     abspath := fun p => if String.eqb p "." then "/proj" else p |}.

Definition section_of (l : list (string * string)) : gmap string string :=
  list_to_map l.

Definition sample_conf (commands : list (string * string)) : ConfigParser :=
  {| cp_defaults := ∅;
     cp_sections :=
       list_to_map [("commands", section_of commands);
                    ("server", section_of [("port", "8080")])] |}.

Definition sample_rules (conf : ConfigParser) : Configuration :=
  {| _conf := conf;
     _excluded_regex := ["#"; "~"];
     _excluded_extensions := [".pdf"; ".tex"];
     _included_extensions := [".css"; ".html"; ".js"; ".jsx"];
     _excluded_files := [];
     _excluded_folders := ["node_modules"; "build"];
     _commands := ["build"; "serve"; "start"; "test"] |}.

Definition all_commands : list (string * string) :=
  [("build", "npm run build"); ("test", "npm test"); ("run", "npm run dev");
   ("start", "npm start"); ("serve", "npm run serve")].

(** The [run] key is absent. *)
Definition commands_without_run : list (string * string) :=
  [("build", "npm run build"); ("test", "npm test");
   ("start", "npm start"); ("serve", "npm run serve")].

(** The [serve] command is empty and the [run] command is not. *)
Definition commands_empty_serve : list (string * string) :=
  [("build", "npm run build"); ("test", "npm test"); ("run", "npm run dev");
   ("start", "npm start"); ("serve", "")].


(** ** More of the program: string methods *)

Module PyText.

(** [s.split(sep)] for a separator of one character; [cur] is the piece
    being read.  An empty string splits into one empty piece. *)
Fixpoint split_from (sep : ascii) (s cur : string) : list string :=
  match s with
  | EmptyString => [cur]
  | String c s' =>
      if Ascii.eqb c sep
      then cur :: split_from sep s' EmptyString
      else split_from sep s' (cur ++ String c EmptyString)
  end.

Definition split (s : string) (sep : ascii) : list string :=
  split_from sep s EmptyString.

(** [s.lower()] on the letters [A] to [Z]; the other characters stay. *)
Definition lower_char (c : ascii) : ascii :=
  let n := nat_of_ascii c in
  if Nat.leb 65 n && Nat.leb n 90 then ascii_of_nat (n + 32) else c.

Fixpoint lower (s : string) : string :=
  match s with
  | EmptyString => EmptyString
  | String c s' => String (lower_char c) (lower s')
  end.

(** [s.strip(c)] for one character [c] *)
Fixpoint lstrip (s : string) (c : ascii) : string :=
  match s with
  | EmptyString => EmptyString
  | String d s' => if Ascii.eqb d c then lstrip s' c else s
  end.

Fixpoint rstrip (s : string) (c : ascii) : string :=
  match s with
  | EmptyString => EmptyString
  | String d s' =>
      match rstrip s' c with
      | EmptyString => if Ascii.eqb d c then EmptyString else String d EmptyString
      | r => String d r
      end
  end.

Definition strip (s : string) (c : ascii) : string := rstrip (lstrip s c) c.

End PyText.

(** ** which *)

Record Os : Type := {
  (** [os.path.split] *)
  os_path_split : string -> string * string;
  (** [os.path.join] *)
  os_path_join : string -> string -> string;
  (** [os.access(path, os.X_OK)] *)
  os_access_x : string -> bool;
  (** [os.environ["PATH"]], when the variable is set *)
  environ_PATH : option string
}.

(** [os.pathsep] *)
Definition pathsep : ascii := ":"%char.

Section Which.

Variable host : Host.
Variable os : Os.

Definition is_exe (fpath : string) : bool :=
  isfile host fpath && os_access_x os fpath.

(** The [for] loop of [which] over the entries of [PATH]. *)
Fixpoint which_in (program : string) (paths : list string) : option string :=
  match paths with
  | [] => None
  | path :: paths' =>
      let path := PyText.strip path "034"%char in
      let exe_file := os_path_join os path program in
      if is_exe exe_file then Some exe_file else which_in program paths'
  end.

Definition which (program : string) : result (option string) :=
  let '(fpath, fname) := os_path_split os program in
  if nonempty fpath then
    if is_exe program then Ok (Some program) else Ok None
  else
    match environ_PATH os with
    | None => Raise (KeyError "PATH")
    | Some PATH => Ok (which_in program (PyText.split PATH pathsep))
    end.

End Which.

(** ** class Singleton *)

(** The decorator object: the decorated constructor and, once it has
    been run, the attribute [_instance]. *)
Record Singleton (A : Type) : Type := {
  _decorated : M A;
  _instance : option A
}.
Arguments _decorated {A} s.
Arguments _instance {A} s.

(** [Singleton.Instance]: the instance and the decorator object as the
    call leaves it. *)
Definition Instance {A} (self : Singleton A) : M (A * Singleton A) :=
  match _instance self with
  | Some inst => ret (inst, self)
  | None =>
      inst <- _decorated self ;;
      ret (inst, {| _decorated := _decorated self; _instance := Some inst |})
  end.

(** ** Configuration.get_watched *)

Record Tree : Type := {
  (** [os.listdir] *)
  listdir : string -> list string;
  (** [os.path.isdir] *)
  isdir : string -> bool;
  (** [glob(pattern, recursive=True)] *)
  glob : string -> list string
}.

(** A list comprehension with a condition that may raise. *)
Fixpoint filter_r {A} (f : A -> result bool) (l : list A) : result (list A) :=
  match l with
  | [] => Ok []
  | x :: l' =>
      rbind (f x) (fun keep =>
      rbind (filter_r f l') (fun rest =>
      Ok (if (keep : bool) then x :: rest else rest)))
  end.

(** The files that [get_watched] considers: the files of the working
    directory, extended with what [glob] finds under each of its folders
    that is not an excluded folder. *)
Definition candidate_files (host : Host) (tree : Tree) (self : Configuration)
  : list string :=
  let all_files := List.filter (isfile host) (listdir tree ".") in
  let all_folders := List.filter (isdir tree) (listdir tree ".") in
  fold_left
    (fun all_files x =>
       if negb (existsb (String.eqb x) (_excluded_folders self))
       then (all_files ++ glob tree (x ++ "/**"))%list
       else all_files)
    all_folders all_files.

Definition get_watched (re : ReEngine) (host : Host) (tree : Tree)
           (self : Configuration) : result (list string) :=
  let all_files := candidate_files host tree self in
  filter_r (is_watched re self) all_files.

(** ** parse_options *)

(** The values [parser.parse_args()] returns. *)
Module Args.

Record Namespace : Type := {
  watchdog : string;
  exclusions : string;
  exclude_filters : string;
  excluded_files : string;
  inclusions : string;
  live_server : bool
}.

(** The defaults of the options. *)
Definition defaults : Namespace :=
  {| watchdog := "True";
     exclusions := ".pdf,.tex,doc,bin,common,node_modules,build";
     exclude_filters := "#,~,.git";
     excluded_files := "";
     inclusions := ".css,.html,.js,.jsx";
     live_server := false |}.

End Args.

(** The attributes [parse_options] adds to the configuration. *)
Record Flags : Type := {
  config_watchdog : bool;
  config_live_server : bool
}.

(** [list(set(exclusions) - set(excluded_extensions))]; the order of the
    list is the one of the set, which nothing in the program relies on. *)
Definition set_difference (l1 l2 : list string) : list string :=
  elements ((list_to_set l1 : gset string) ∖ list_to_set l2).

(** [parse_options], from the parsed arguments; [str_of_list] is [str]
    on a list of strings. *)
Definition parse_options (str_of_list : list string -> string)
           (args : Args.Namespace) (config : Configuration)
  : M (Configuration * Flags) :=
  let flags :=
    {| config_watchdog := String.eqb (PyText.lower (Args.watchdog args)) "true";
       config_live_server := if Args.live_server args then true else false |} in
  config <-
    (if nonempty (Args.exclude_filters args) then
       print ("Excluding files for given filters" ++ " " ++
              str_of_list (PyText.split (Args.exclude_filters args) ","%char)) ;;;
       ret (set_excluded_regex config
              (PyText.split (Args.exclude_filters args) ","%char))
     else ret config) ;;
  let config :=
    if nonempty (Args.inclusions args) then
      let inclusions := PyText.split (Args.inclusions args) ","%char in
      let config :=
        set_included_extensions config
          (List.filter (fun value => PyStr.startswith value ".") inclusions) in
      if nonempty (Args.excluded_files args) then
        set_excluded_files config
          (PyText.split (Args.excluded_files args) ","%char)
      else config
    else config in
  let config :=
    if nonempty (Args.exclusions args) then
      let exclusions := PyText.split (Args.exclusions args) ","%char in
      let excluded_extensions :=
        List.filter (fun value => PyStr.startswith value ".") exclusions in
      let excluded_folders := set_difference exclusions excluded_extensions in
      set_excluded_folders (set_excluded_extensions config excluded_extensions)
                           excluded_folders
    else config in
  ret (config, flags).

(** ** Samples for the rest of the program *)

Definition sample_tree : Tree :=
  {| listdir := fun d => if String.eqb d "." then ["index.html"; "notes.pdf"; "src"; "build"] else [];
     isdir := fun p => existsb (String.eqb p) ["src"; "build"];
     glob := fun pat =>
       if String.eqb pat "src/**" then ["src/"; "src/app.js"; "src/app.css"; "src/doc.tex"]
       else if String.eqb pat "build/**" then ["build/"; "build/app.js"]
       else [] |}.

Definition sample_tree_host : Host :=
  sample_host 0 ["index.html"; "notes.pdf"; "src/app.js"; "src/app.css";
                 "src/doc.tex"; "build/app.js"].

(** [os.path] on the paths of the samples: a program name without a
    slash has an empty directory part, and joining puts a slash between. *)
Definition sample_os (path : option string) (executables : list string) : Os :=
  {| os_path_split := fun p =>
       if PyStr.contains p "/" then (p, EmptyString) else (EmptyString, p);
     os_path_join := fun a b => a ++ "/" ++ b;
     os_access_x := fun p => existsb (String.eqb p) executables;
     environ_PATH := path |}.

Definition sample_str_of_list (l : list string) : string :=
  "[" ++ String.concat ", " (map (fun s => "'" ++ s ++ "'") l) ++ "]".


(** ** What the further properties speak of *)

(** The two rule sets have the same entries in each of the five lists,
    in any order and any number of times. *)
Definition same_rules (r r' : Configuration) : Prop :=
  (incl (_included_extensions r) (_included_extensions r') /\
   incl (_included_extensions r') (_included_extensions r)) /\
  (incl (_excluded_extensions r) (_excluded_extensions r') /\
   incl (_excluded_extensions r') (_excluded_extensions r)) /\
  (incl (_excluded_folders r) (_excluded_folders r') /\
   incl (_excluded_folders r') (_excluded_folders r)) /\
  (incl (_excluded_files r) (_excluded_files r') /\
   incl (_excluded_files r') (_excluded_files r)) /\
  (incl (_excluded_regex r) (_excluded_regex r') /\
   incl (_excluded_regex r') (_excluded_regex r)).

(** Everything the enumeration could list: the files of the working
    directory and what [glob] finds under every folder of it. *)
Definition all_found (host : Host) (tree : Tree) : list string :=
  (List.filter (isfile host) (listdir tree ".") ++
   concat (map (fun x => glob tree (x ++ "/**"))
               (List.filter (isdir tree) (listdir tree "."))))%list.

(** What [glob] finds for the pattern [x/**] is below [x]. *)
Definition glob_below (tree : Tree) : Prop :=
  forall x f, In f (glob tree (x ++ "/**")) -> PyStr.startswith f (x ++ "/") = true.

(** The world after a build with the command [cmd]: its line is printed
    and the command, when it is not empty, has been run. *)
Definition built (host : Host) (cmd : string) (w : world) : world :=
  {| stdout := stdout w ++ ["Running build" ++ " " ++ cmd];
     spawned := spawned w ++
                (if nonempty cmd
                 then [{| cp_args := ArgStr cmd;
                          returncode := exit_status host (ArgStr cmd) |}]
                 else []) |}.

(** The three event callbacks of the handler. *)
Definition callbacks (re : ReEngine) (host : Host) (self : ChangeHandler)
  : list (string -> M unit) :=
  [on_created re host self; on_modified re host self; on_deleted re host self].


(** * The path classifier *)

Section ClassifierFacts.

Variable re : ReEngine.

Lemma fold_set_true {A} (f : A -> bool) (l : list A) (w : bool) :
  fold_left (fun watched x => if f x then true else watched) l w = w || existsb f l.
Proof.
  revert w; induction l as [|x l IH]; intros w; simpl.
  - now rewrite orb_false_r.
  - rewrite IH. destruct (f x), w; reflexivity.
Qed.

Lemma fold_set_false {A} (f : A -> bool) (l : list A) (w : bool) :
  fold_left (fun watched x => if f x then false else watched) l w
  = w && negb (existsb f l).
Proof.
  revert w; induction l as [|x l IH]; intros w; simpl.
  - now rewrite andb_true_r.
  - rewrite IH. destruct (f x), w; reflexivity.
Qed.

Lemma regex_pass (p : string) (l : list string) (w : bool) :
  for_each l w
    (fun watched regex =>
       rbind (re_findall re regex p)
             (fun found => Ok (if truthy found then false else watched)))
  = if forallb (compiles re) l
    then Ok (w && negb (existsb (regex_hits re p) l))
    else Raise ReError.
Proof.
  revert w; induction l as [|regex l IH]; intros w; simpl.
  - now rewrite andb_true_r.
  - unfold re_findall, compiles, regex_hits at 1.
    destruct (re_compile re regex) as [c|]; simpl; [|reflexivity].
    rewrite IH. destruct (forallb _ l); [|reflexivity].
    destruct (truthy _), w; reflexivity.
Qed.

(** [is_watched] raises exactly when a pattern does not compile, and
    answers [decision] otherwise. *)
Lemma is_watched_eq (self : Configuration) (p : string) :
  is_watched re self p
  = if forallb (compiles re) (_excluded_regex self)
    then Ok (decision re self p)
    else Raise ReError.
Proof.
  unfold is_watched, decision.
  rewrite regex_pass, fold_set_true, !fold_set_false. reflexivity.
Qed.

Lemma is_watched_true (self : Configuration) (p : string) :
  is_watched re self p = Ok true <->
  forallb (compiles re) (_excluded_regex self) = true /\ decision re self p = true.
Proof.
  rewrite is_watched_eq.
  destruct (forallb (compiles re) _); split.
  - intros H; injection H as H; auto.
  - intros [_ H]; now rewrite H.
  - discriminate.
  - intros [H _]; discriminate.
Qed.

(** Whatever the patterns, a path is never reported watched unless an
    included extension matches it and no exclusion does. *)
Lemma is_watched_sound (self : Configuration) (p : string) :
  is_watched re self p = Ok true ->
  matches_inclusion self p /\ ~ matches_exclusion re self p.
Proof.
  rewrite is_watched_true. unfold decision. rewrite !andb_true_iff, !negb_true_iff.
  intros [_ [[[[H1 H2] H3] H4] H5]]. split.
  - apply existsb_exists in H1 as [x [? ?]]. exists x; auto.
  - intros [[x [Hin Hm]] | [[x [Hin Hm]] | [[x [Hin Hm]] | [x [found [Hin [Hf Hne]]]]]]].
    + assert (E : existsb (PyStr.endswith p) (_excluded_extensions self) = true)
        by (apply existsb_exists; eauto). congruence.
    + assert (E : existsb (PyStr.contains p) (_excluded_folders self) = true)
        by (apply existsb_exists; eauto). congruence.
    + assert (E : existsb (PyStr.contains p) (_excluded_files self) = true)
        by (apply existsb_exists; eauto). congruence.
    + assert (E : existsb (regex_hits re p) (_excluded_regex self) = true).
      { apply existsb_exists. exists x; split; [exact Hin|].
        unfold re_findall in Hf. unfold regex_hits.
        destruct (re_compile re x); [|discriminate].
        injection Hf as ->. destruct found; [congruence | reflexivity]. }
      congruence.
Qed.

Lemma existsb_incl {A} (f : A -> bool) (l l' : list A) :
  incl l l' -> existsb f l = true -> existsb f l' = true.
Proof.
  intros Hi H. apply existsb_exists in H as [x [Hx Hf]].
  apply existsb_exists. exists x; split; [apply Hi, Hx | exact Hf].
Qed.

Lemma not_existsb_incl {A} (f : A -> bool) (l l' : list A) :
  incl l l' -> negb (existsb f l') = true -> negb (existsb f l) = true.
Proof.
  intros Hi H. destruct (existsb f l) eqn:E; [|reflexivity].
  now rewrite (existsb_incl f l l' Hi E) in H.
Qed.

Lemma forallb_incl {A} (f : A -> bool) (l l' : list A) :
  incl l l' -> forallb f l' = true -> forallb f l = true.
Proof.
  intros Hi H. rewrite forallb_forall in *. intros x Hx. apply H, Hi, Hx.
Qed.

(** C1: a path that matches an inclusion rule and an exclusion rule of
    any of the four categories is not watched: at a rule set whose
    excluded patterns are regular expressions, [is_watched] returns
    [False]. *)
Theorem exclusion_dominates_inclusion (self : Configuration) (p : string) :
  patterns_compile re self ->
  matches_inclusion self p ->
  matches_exclusion re self p ->
  is_watched re self p = Ok false.
Proof.
  intros Hc _ Hex. pose proof (is_watched_sound self p) as Hs.
  rewrite is_watched_eq in *. unfold patterns_compile in Hc. rewrite Hc in *.
  destruct (decision re self p); [|reflexivity].
  destruct (Hs eq_refl) as [_ Hn]. contradiction.
Qed.

(** C2: with no included extension nothing is watched: at a rule set
    whose [_included_extensions] is empty (its excluded patterns being
    regular expressions), [is_watched] returns [False] for every
    path. *)
Theorem empty_inclusions_watch_nothing (self : Configuration) (p : string) :
  _included_extensions self = [] ->
  patterns_compile re self ->
  is_watched re self p = Ok false.
Proof.
  intros He Hc. rewrite is_watched_eq. unfold patterns_compile in Hc.
  rewrite Hc. unfold decision. rewrite He. reflexivity.
Qed.

(** C8: under [included = [".js"]], [excludedFolders = ["node_modules"]]
    and nothing else, ["src/app.js"] is watched and
    ["node_modules/lib/app.js"] is not. *)
Theorem is_watched_example (conf : ConfigParser) (commands : list string) :
  let rules := {| _conf := conf;
                  _excluded_regex := [];
                  _excluded_extensions := [];
                  _included_extensions := [".js"];
                  _excluded_files := [];
                  _excluded_folders := ["node_modules"];
                  _commands := commands |} in
  is_watched re rules "src/app.js" = Ok true /\
  is_watched re rules "node_modules/lib/app.js" = Ok false.
Proof. split; reflexivity. Qed.

(** C10: [is_watched] is monotone in the rules: a watched path stays
    watched when included extensions are added, and a path watched
    after exclusions were added was watched before. *)
Theorem is_watched_monotone (p : string) (r r' : Configuration) :
  (adds_inclusions r r' ->
   is_watched re r p = Ok true -> is_watched re r' p = Ok true) /\
  (adds_exclusions r r' ->
   is_watched re r' p = Ok true -> is_watched re r p = Ok true).
Proof.
  split.
  - intros (Hi & E1 & E2 & E3 & E4). rewrite !is_watched_true.
    unfold decision. rewrite E1, E2, E3, E4. intros [Hc Hd]. split; [exact Hc|].
    rewrite !andb_true_iff in *.
    destruct Hd as [[[[H1 H2] H3] H4] H5]. repeat split; auto.
    eapply existsb_incl; eauto.
  - intros (E & H1 & H2 & H3 & H4). rewrite !is_watched_true.
    unfold decision. rewrite E. intros [Hc Hd]. split.
    + eapply forallb_incl; eauto.
    + rewrite !andb_true_iff in *.
      destruct Hd as [[[[D1 D2] D3] D4] D5].
      repeat split; auto; eapply not_existsb_incl; eauto.
Qed.

End ClassifierFacts.

Lemma exclusion_dominates_inclusion_witness :
  let rules := sample_rules (sample_conf all_commands) in
  patterns_compile Literal.engine rules /\
  matches_inclusion rules "src/#app.js" /\
  matches_exclusion Literal.engine rules "src/#app.js" /\
  is_watched Literal.engine rules "src/#app.js" = Ok false.
Proof.
  assert (Hc : patterns_compile Literal.engine (sample_rules (sample_conf all_commands)))
    by reflexivity.
  assert (Hi : matches_inclusion (sample_rules (sample_conf all_commands)) "src/#app.js")
    by (exists ".js"; split; [simpl; tauto | reflexivity]).
  assert (He : matches_exclusion Literal.engine
                 (sample_rules (sample_conf all_commands)) "src/#app.js").
  { right; right; right. exists "#", ["#"].
    split; [simpl; tauto | split; [reflexivity | discriminate]]. }
  exact (conj Hc (conj Hi (conj He
           (exclusion_dominates_inclusion Literal.engine _ _ Hc Hi He)))).
Defined.

Lemma empty_inclusions_watch_nothing_witness :
  let rules := set_included_extensions (sample_rules (sample_conf all_commands)) [] in
  _included_extensions rules = [] /\
  patterns_compile Literal.engine rules /\
  is_watched Literal.engine rules "src/app.js" = Ok false.
Proof.
  split; [reflexivity | split; [reflexivity |]].
  apply (empty_inclusions_watch_nothing Literal.engine); reflexivity.
Defined.

Lemma is_watched_monotone_witness :
  let r := sample_rules (sample_conf all_commands) in
  let more_included := set_included_extensions r (".ts" :: _included_extensions r) in
  let less_excluded := set_excluded_folders r ["build"] in
  (adds_inclusions r more_included /\
   is_watched Literal.engine r "src/app.js" = Ok true /\
   is_watched Literal.engine more_included "src/app.js" = Ok true) /\
  (adds_exclusions less_excluded r /\
   is_watched Literal.engine r "src/app.js" = Ok true /\
   is_watched Literal.engine less_excluded "src/app.js" = Ok true).
Proof.
  set (r := sample_rules (sample_conf all_commands)).
  assert (Hi : adds_inclusions r (set_included_extensions r (".ts" :: _included_extensions r))).
  { repeat split. intros x Hx. right. exact Hx. }
  assert (He : adds_exclusions (set_excluded_folders r ["build"]) r).
  { repeat split; try (intros x Hx; exact Hx).
    intros x Hx. simpl in *. tauto. }
  assert (Hw : is_watched Literal.engine r "src/app.js" = Ok true) by reflexivity.
  split.
  - exact (conj Hi (conj Hw
      (proj1 (is_watched_monotone Literal.engine "src/app.js" r _) Hi Hw))).
  - exact (conj He (conj Hw
      (proj2 (is_watched_monotone Literal.engine "src/app.js" _ r) He Hw))).
Defined.

(** * The dispatcher *)

Ltac case_command H :=
  repeat (match type of H with
          | context [conf_get ?c ?s ?k] => destruct (conf_get c s k) eqn:?
          | context [nonempty ?c] => destruct (nonempty c) eqn:?
          | context [shlex_split ?h ?c] => destruct (shlex_split h c) eqn:?
          end; simpl in H).

Ltac unfold_actions :=
  unfold trigger, build, test, start, run, serve, command_of,
         build_command, test_command, start_command, run_command, serve_command,
         py_shlex_split, bind, lift, ret, print, subprocess_run in *.

Lemma app_one_neq {A} (l : list A) (x : A) : l <> (l ++ [x])%list.
Proof.
  intros H. apply (f_equal (@List.length A)) in H.
  rewrite length_app in H. simpl in H. lia.
Qed.

Section DispatcherFacts.

Variable host : Host.
Variable config : Configuration.

(** An action whose process was spawned returns its label, whatever the
    status of the process. *)
Lemma spawned_then_label (a : action) (w w' : world) (r : result string)
      (p : CompletedProcess) :
  trigger host config a w = (r, w') ->
  spawned w' = (spawned w ++ [p])%list ->
  r = Ok (status_label a).
Proof.
  intros Ht Hs. destruct a; unfold_actions; simpl in Ht; case_command Ht;
    injection Ht as <- <-; simpl in Hs;
    solve [reflexivity | exfalso; eapply app_one_neq; eassumption].
Qed.

(** Each of [build], [test], [run] and [start] looks at its own
    command: when it is empty the action prints its line, spawns
    nothing and returns its label. *)
Lemma empty_command_no_process (a : action) (w : world) :
  a <> Serve ->
  command_of config a = Ok EmptyString ->
  exists line,
    trigger host config a w
    = (Ok (status_label a), {| stdout := stdout w ++ [line]; spawned := spawned w |}).
Proof.
  intros Ha Hc. destruct a; try congruence; unfold_actions; simpl in *;
    rewrite Hc; simpl; eexists; reflexivity.
Qed.

(** C9: [serve] runs the serve command exactly when the run command is
    a non-empty string, whatever the serve command is, and returns
    ["Serving"] in both cases. *)
Theorem serve_guarded_by_run_command (w : world) (r s : string) :
  run_command config = Ok r ->
  serve_command config = Ok s ->
  serve host config w
  = (Ok "Serving",
     {| stdout := stdout w ++ ["Running " ++ dquote ++ "serve" ++ dquote];
        spawned := spawned w ++
                   (if nonempty r
                    then [{| cp_args := ArgStr s;
                             returncode := exit_status host (ArgStr s) |}]
                    else []) |}).
Proof.
  intros Hr Hs. unfold_actions. rewrite Hr; simpl.
  destruct (nonempty r); simpl.
  - rewrite Hs; reflexivity.
  - now rewrite app_nil_r.
Qed.

End DispatcherFacts.

(** C5, as the code has it: an action whose process exits with a non-zero
    status returns its ordinary status label, the value it returns when
    the process exits with status zero, and raises nothing; the exit
    status is not looked at. *)
Theorem exit_status_not_reported (host : Host) (config : Configuration)
        (a : action) (w w' : world) (r : result string) (p : CompletedProcess) :
  trigger host config a w = (r, w') ->
  spawned w' = (spawned w ++ [p])%list ->
  returncode p <> 0%Z ->
  r = Ok (status_label a) /\
  forall host', shlex_split host' = shlex_split host ->
                fst (trigger host' config a w) = r.
Proof.
  intros Ht Hs _. pose proof (spawned_then_label _ _ _ _ _ _ _ Ht Hs) as ->.
  split; [reflexivity|]. intros host' Hsplit.
  destruct a; unfold_actions; simpl in *; rewrite ?Hsplit;
    case_command Ht; injection Ht as <-; simpl in Hs;
    solve [reflexivity | exfalso; eapply app_one_neq; eassumption].
Qed.

Lemma exit_status_not_reported_witness :
  let host := sample_host 1 [] in
  let config := sample_rules (sample_conf all_commands) in
  let out := trigger host config Test world0 in
  let p := {| cp_args := ArgList ["npm"; "test"]; returncode := 1 |} in
  spawned (snd out) = (spawned world0 ++ [p])%list /\
  returncode p <> 0%Z /\
  fst out = Ok "Testing" /\
  fst (trigger (sample_host 0 []) config Test world0) = fst out.
Proof.
  set (host := sample_host 1 []).
  set (config := sample_rules (sample_conf all_commands)).
  set (p := {| cp_args := ArgList ["npm"; "test"]; returncode := 1 |}).
  assert (Hs : spawned (snd (trigger host config Test world0)) = (spawned world0 ++ [p])%list)
    by reflexivity.
  assert (Hn : returncode p <> 0%Z) by discriminate.
  destruct (exit_status_not_reported host config Test world0
              (snd (trigger host config Test world0))
              (fst (trigger host config Test world0)) p
              (surjective_pairing _) Hs Hn) as [Hl Hi].
  exact (conj Hs (conj Hn (conj Hl (Hi (sample_host 0 []) eq_refl)))).
Defined.

(** C5 fails: the build command exits with status 1 on one host and with
    status 0 on the other, and [/build] answers the same on both. *)
Lemma nonzero_exit_same_answer :
  let config := sample_rules (sample_conf all_commands) in
  let failed := trigger (sample_host 1 []) config Build world0 in
  let succeeded := trigger (sample_host 0 []) config Build world0 in
  map returncode (spawned (snd failed)) = [1%Z] /\
  map returncode (spawned (snd succeeded)) = [0%Z] /\
  fst failed = fst succeeded.
Proof. repeat split. Qed.

(** C6 at [serve]: the serve command is empty and the run command is not;
    [serve] hands the empty command to a shell.  The other four actions
    spawn nothing when their command is empty. *)
Theorem serve_empty_command_spawns :
  let config := sample_rules (sample_conf commands_empty_serve) in
  command_of config Serve = Ok EmptyString /\
  trigger (sample_host 0 []) config Serve world0
  = (Ok "Serving",
     {| stdout := ["Running " ++ dquote ++ "serve" ++ dquote];
        spawned := [{| cp_args := ArgStr EmptyString; returncode := 0 |}] |}).
Proof. split; reflexivity. Qed.

Lemma serve_guarded_by_run_command_witness :
  let config := sample_rules (sample_conf all_commands) in
  run_command config = Ok "npm run dev" /\
  serve_command config = Ok "npm run serve" /\
  serve (sample_host 0 []) config world0
  = (Ok "Serving",
     {| stdout := ["Running " ++ dquote ++ "serve" ++ dquote];
        spawned := [{| cp_args := ArgStr "npm run serve"; returncode := 0 |}] |}).
Proof.
  split; [reflexivity | split; [reflexivity |]].
  apply (serve_guarded_by_run_command (sample_host 0 [])
           (sample_rules (sample_conf all_commands)) world0
           "npm run dev" "npm run serve"); reflexivity.
Defined.

(** * The configuration *)

(** A configuration is constructed exactly when the sections [commands]
    and [server] are there and [commands] has the four keys of
    [_commands]: [build], [serve], [start] and [test]. *)
Lemma Configuration_init_ok (conf : ConfigParser) :
  (exists self, Configuration_init conf = Ok self) <->
  conf_contains conf "commands" = true /\
  conf_contains conf "server" = true /\
  forall c, In c ["build"; "serve"; "start"; "test"] ->
            has_option conf "commands" c = true.
Proof.
  unfold Configuration_init.
  destruct (conf_contains conf "commands"); simpl;
    [|split; [intros [? H]; discriminate | intros [H _]; discriminate]].
  destruct (conf_contains conf "server"); simpl;
    [|split; [intros [? H]; discriminate | intros (_ & H & _); discriminate]].
  split.
  - intros [self H]. repeat split. intros c Hc.
    destruct (has_option conf "commands" "build") eqn:E1; [|discriminate].
    destruct (has_option conf "commands" "serve") eqn:E2; [|discriminate].
    destruct (has_option conf "commands" "start") eqn:E3; [|discriminate].
    destruct (has_option conf "commands" "test") eqn:E4; [|discriminate].
    simpl in Hc. intuition (subst; assumption).
  - intros (_ & _ & H).
    rewrite !H by (simpl; tauto). simpl. eexists; reflexivity.
Qed.

(** When the construction fails nothing of [main] runs: the exception
    leaves the module body with the world as it was. *)
Lemma module_body_fatal (conf : ConfigParser) (main : Configuration -> M unit)
      (e : pyexn) (w : world) :
  Configuration_init conf = Raise e ->
  module_body conf main w = (Raise e, w).
Proof. intros H. unfold module_body, bind, lift. now rewrite H. Qed.


(** C7 at the [run] key: a configuration file with both sections and the
    keys [build], [test], [start] and [serve], and no [run] key, is
    accepted; reading the run command then raises [KeyError], in [run]
    and in [serve]. *)
Theorem missing_run_key_accepted :
  let conf := sample_conf commands_without_run in
  has_option conf "commands" "run" = false /\
  exists config,
    Configuration_init conf = Ok config /\
    run_command config = Raise (KeyError "run") /\
    fst (trigger (sample_host 0 []) config Run world0) = Raise (KeyError "run") /\
    fst (trigger (sample_host 0 []) config Serve world0) = Raise (KeyError "run").
Proof. split; [reflexivity|]. eexists. repeat split. Qed.

(** * The change handler *)

Section HandlerFacts.

Variable re : ReEngine.
Variable host : Host.
Variable self : ChangeHandler.

(** A path that is not a file on disk is dropped before it is
    normalized or classified. *)
Lemma not_a_file_ignored (filepath : string) (w : world) :
  isfile host filepath = false ->
  _build_if_watched re host self filepath w = (Ok tt, w).
Proof. intros H. unfold _build_if_watched. now rewrite H. Qed.

Lemma on_deleted_gone (src_path : string) (w : world) :
  isfile host src_path = false ->
  on_deleted re host self src_path w
  = (Ok tt, {| stdout := stdout w ++ ["file " ++ src_path ++ " deleted"];
               spawned := spawned w |}).
Proof.
  intros H. unfold on_deleted, bind, print.
  now rewrite not_a_file_ignored.
Qed.

End HandlerFacts.

(** C4 at a deleted file: [src/app.js] is watched, and its modification
    runs the build; once the file is gone, [on_deleted] prints its line
    and nothing else happens. *)
Theorem deleted_watched_file_no_build :
  let config := sample_rules (sample_conf all_commands) in
  let handler := {| root := "."; config := config |} in
  let there := sample_host 0 ["/proj/src/app.js"] in
  let gone := sample_host 0 [] in
  rbind (normalize "/proj/src/app.js" (abspath gone "."))
        (is_watched Literal.engine config) = Ok true /\
  map cp_args
      (spawned (snd (on_modified Literal.engine there handler "/proj/src/app.js" world0)))
  = [ArgStr "npm run build"] /\
  on_deleted Literal.engine gone handler "/proj/src/app.js" world0
  = (Ok tt, {| stdout := ["file /proj/src/app.js deleted"]; spawned := [] |}).
Proof. repeat split. Qed.

(** * The event normalizer *)

(** [append] is allowed to unfold on a string that starts with a
    character. *)
Local Arguments String.append !s1 s2 : simpl nomatch.

Lemma append_assoc (a b c : string) : (a ++ b) ++ c = a ++ (b ++ c).
Proof. induction a as [|x a' IH]; simpl; [reflexivity | now rewrite IH]. Qed.

Lemma prefix_append (u t : string) : String.prefix u (u ++ t) = true.
Proof.
  induction u as [|c u IH]; simpl; [destruct t; reflexivity|].
  destruct (ascii_dec c c); [exact IH | congruence].
Qed.

Lemma prefix_split (u t : string) :
  String.prefix u t = true -> exists v, t = u ++ v.
Proof.
  revert t; induction u as [|c u IH]; intros t H.
  - exists t; reflexivity.
  - destruct t as [|d t]; simpl in H; [discriminate|].
    destruct (ascii_dec c d) as [->|]; [|discriminate].
    destruct (IH t H) as [v ->]. exists v; reflexivity.
Qed.

Lemma replace_from_skip (old new u t : string) :
  PyStr.replace_from old new (String.length u) (u ++ t)
  = PyStr.replace_from old new 0 t.
Proof. induction u as [|c u IH]; simpl; [reflexivity | exact IH]. Qed.

(** The first occurrence of a non-empty [old] at the head of the string
    is removed and the scan goes on behind it. *)
Lemma replace_head (old t : string) :
  old <> EmptyString ->
  PyStr.replace (old ++ t) old EmptyString = PyStr.replace t old EmptyString.
Proof.
  intros Hne. destruct old as [|c old]; [congruence|].
  unfold PyStr.replace.
  change (String c old ++ t) with (String c (old ++ t)).
  cbn [PyStr.replace_from].
  change (String c (old ++ t)) with (String c old ++ t).
  rewrite prefix_append. simpl. apply replace_from_skip.
Qed.

Lemma replace_from_miss (old new : string) (c : ascii) (s : string) :
  String.prefix old (String c s) = false ->
  PyStr.replace_from old new 0 (String c s)
  = String c (PyStr.replace_from old new 0 s).
Proof. intros H. cbn [PyStr.replace_from]. now rewrite H. Qed.

(** A root with its slash, when the root starts with a slash, has two
    slashes and does not occur in ["a/b.js"]. *)
Lemma rel_example_untouched (x : string) :
  PyStr.replace "a/b.js" (String "/" (x ++ "/")) EmptyString = "a/b.js".
Proof.
  assert (H : String.prefix (x ++ "/") "b.js" = false).
  { destruct (String.prefix (x ++ "/") "b.js") eqn:E; [|reflexivity].
    apply prefix_split in E as [v E]. exfalso.
    repeat (destruct x as [|? x]; simpl in E; [discriminate|];
            injection E as _ E).
    destruct x; discriminate. }
  unfold PyStr.replace.
  rewrite replace_from_miss by reflexivity.
  rewrite replace_from_miss by exact H.
  rewrite !replace_from_miss by reflexivity.
  reflexivity.
Qed.

(** The example of the normalizer: under an absolute root, the path of
    [a/b.js] below the root is normalized to ["a/b.js"]. *)
Lemma normalize_example (abs_root : string) :
  PyStr.startswith abs_root "/" = true ->
  normalize (abs_root ++ "/a/b.js") abs_root = Ok "a/b.js".
Proof.
  intros Habs. unfold PyStr.startswith in Habs.
  apply prefix_split in Habs as [x ->]. simpl.
  unfold normalize.
  replace (String "/" (x ++ "/a/b.js")) with (String "/" (x ++ "/") ++ "a/b.js")
    by (cbn [append]; f_equal; exact (append_assoc x "/" "a/b.js")).
  change (String "/" x ++ "/") with (String "/" (x ++ "/")).
  assert (Hc : PyStr.contains (String "/" (x ++ "/") ++ "a/b.js")
                              (String "/" (x ++ "/")) = true).
  { change (String "/" (x ++ "/") ++ "a/b.js")
      with (String "/" ((x ++ "/") ++ "a/b.js")).
    cbn [PyStr.contains].
    change (String "/" ((x ++ "/") ++ "a/b.js"))
      with (String "/" (x ++ "/") ++ "a/b.js").
    now rewrite prefix_append. }
  rewrite Hc, replace_head by discriminate.
  now rewrite rel_example_untouched.
Qed.

(** A path that does not contain the root with its slash fails the
    assertion. *)
Lemma normalize_outside (filepath abs_root : string) :
  PyStr.contains filepath (abs_root ++ "/") = false ->
  normalize filepath abs_root = Raise AssertionError.
Proof. intros H. unfold normalize. now rewrite H. Qed.

Example normalize_other_x : normalize "/other/x" "/proj" = Raise AssertionError.
Proof. reflexivity. Qed.

(** C3 where the root occurs again inside the path: below the root [/r],
    the file [src/r/app.js] is normalized to ["srcapp.js"], and the path
    [/other/r/x.js], which the root does not prefix, is normalized to
    ["/otherx.js"] instead of failing. *)
Theorem normalize_removes_inner_root :
  PyStr.startswith "/r/src/r/app.js" "/r/" = true /\
  normalize "/r/src/r/app.js" "/r" = Ok "srcapp.js" /\
  PyStr.startswith "/other/r/x.js" "/r/" = false /\
  normalize "/other/r/x.js" "/r" = Ok "/otherx.js".
Proof. repeat split. Qed.

(** * More on the path classifier *)

Lemma contains_unfold (s sub : string) :
  PyStr.contains s sub
  = String.prefix sub s ||
    match s with
    | EmptyString => false
    | String _ s' => PyStr.contains s' sub
    end.
Proof. destruct s; reflexivity. Qed.

Lemma contains_empty (s : string) : PyStr.contains s EmptyString = true.
Proof. rewrite contains_unfold. destruct s; reflexivity. Qed.

Lemma endswith_empty (s : string) : PyStr.endswith s EmptyString = true.
Proof.
  induction s as [|c s IH]; [reflexivity|].
  cbn [PyStr.endswith]. rewrite IH. apply orb_true_r.
Qed.

Lemma contains_middle (a f b : string) : PyStr.contains (a ++ f ++ b) f = true.
Proof.
  induction a as [|c a IH].
  - change (EmptyString ++ f ++ b) with (f ++ b).
    rewrite contains_unfold, prefix_append. reflexivity.
  - change (String c a ++ f ++ b) with (String c (a ++ f ++ b)).
    cbn [PyStr.contains]. rewrite IH. apply orb_true_r.
Qed.

Lemma existsb_same {A} (f : A -> bool) (l l' : list A) :
  incl l l' -> incl l' l -> existsb f l = existsb f l'.
Proof.
  intros H1 H2. destruct (existsb f l) eqn:E.
  - symmetry. eapply existsb_incl; eauto.
  - destruct (existsb f l') eqn:E'; [|reflexivity].
    rewrite (existsb_incl f l' l H2 E') in E. discriminate.
Qed.

Lemma forallb_same {A} (f : A -> bool) (l l' : list A) :
  incl l l' -> incl l' l -> forallb f l = forallb f l'.
Proof.
  intros H1 H2. destruct (forallb f l') eqn:E'.
  - eapply forallb_incl; eauto.
  - destruct (forallb f l) eqn:E; [|reflexivity].
    rewrite (forallb_incl f l' l H2 E) in E'. discriminate.
Qed.

Lemma decision_true (re : ReEngine) (self : Configuration) (p : string) :
  decision re self p = true <->
  matches_inclusion self p /\ ~ matches_exclusion re self p.
Proof.
  unfold decision. rewrite !andb_true_iff, !negb_true_iff. split.
  - intros [[[[H1 H2] H3] H4] H5]. split.
    + apply existsb_exists in H1 as [x [? ?]]. exists x; auto.
    + intros [[x [Hin Hm]] | [[x [Hin Hm]] | [[x [Hin Hm]] | [x [found [Hin [Hf Hne]]]]]]].
      * assert (E : existsb (PyStr.endswith p) (_excluded_extensions self) = true)
          by (apply existsb_exists; eauto). congruence.
      * assert (E : existsb (PyStr.contains p) (_excluded_folders self) = true)
          by (apply existsb_exists; eauto). congruence.
      * assert (E : existsb (PyStr.contains p) (_excluded_files self) = true)
          by (apply existsb_exists; eauto). congruence.
      * assert (E : existsb (regex_hits re p) (_excluded_regex self) = true).
        { apply existsb_exists. exists x; split; [exact Hin|].
          unfold re_findall in Hf. unfold regex_hits.
          destruct (re_compile re x); [|discriminate].
          injection Hf as ->. destruct found; [congruence | reflexivity]. }
        congruence.
  - intros [[x [Hin Hm]] Hn]. repeat split.
    + apply existsb_exists; eauto.
    + destruct (existsb _ (_excluded_extensions self)) eqn:E; [|reflexivity].
      apply existsb_exists in E as [y [? ?]]. exfalso; apply Hn. left; eauto.
    + destruct (existsb _ (_excluded_folders self)) eqn:E; [|reflexivity].
      apply existsb_exists in E as [y [? ?]]. exfalso; apply Hn. right; left; eauto.
    + destruct (existsb _ (_excluded_files self)) eqn:E; [|reflexivity].
      apply existsb_exists in E as [y [? ?]]. exfalso; apply Hn.
      right; right; left; eauto.
    + destruct (existsb _ (_excluded_regex self)) eqn:E; [|reflexivity].
      apply existsb_exists in E as [y [Hy Hh]]. exfalso; apply Hn.
      right; right; right. unfold regex_hits in Hh. unfold re_findall.
      destruct (re_compile re y) as [c|] eqn:Ec; [|discriminate].
      exists y, (pattern_findall re c p).
      split; [exact Hy | split; [now rewrite Ec|]].
      intros E. rewrite E in Hh. discriminate.
Qed.

Lemma is_watched_true_spec (re : ReEngine) (self : Configuration) (p : string) :
  is_watched re self p = Ok true <->
  patterns_compile re self /\
  matches_inclusion self p /\ ~ matches_exclusion re self p.
Proof.
  rewrite is_watched_true, decision_true. unfold patterns_compile. tauto.
Qed.

(** X1: [is_watched] answers [True] exactly when every excluded pattern
    compiles, an included extension ends the path, and no exclusion rule
    of the four lists matches it. *)
Theorem is_watched_true_iff (re : ReEngine) (self : Configuration) (p : string) :
  is_watched re self p = Ok true <->
  patterns_compile re self /\
  matches_inclusion self p /\ ~ matches_exclusion re self p.
Proof.
  split.
  - intros H. apply is_watched_true in H as [Hc Hd].
    apply decision_true in Hd. split; [exact Hc | exact Hd].
  - intros [Hc Hd]. apply is_watched_true. split; [exact Hc|].
    apply decision_true, Hd.
Qed.

(** X2: [is_watched] raises, with [re.error], exactly when one of the
    excluded patterns does not compile: whatever the path and the other
    rules are, every pattern is tried. *)
Theorem is_watched_raises_iff (re : ReEngine) (self : Configuration) (p : string) :
  is_watched re self p = Raise ReError <->
  exists regex, In regex (_excluded_regex self) /\ re_compile re regex = None.
Proof.
  rewrite is_watched_eq.
  destruct (forallb (compiles re) (_excluded_regex self)) eqn:E; split.
  - discriminate.
  - intros [regex [Hin Hc]]. rewrite forallb_forall in E.
    specialize (E regex Hin). unfold compiles in E. rewrite Hc in E. discriminate.
  - intros _.
    assert (H : existsb (fun r => negb (compiles re r)) (_excluded_regex self) = true).
    { induction (_excluded_regex self) as [|r l IH]; [discriminate|].
      simpl in *. destruct (compiles re r); simpl; [apply IH, E | reflexivity]. }
    apply existsb_exists in H as [regex [Hin Hc]]. exists regex; split; [exact Hin|].
    unfold compiles in Hc. destruct (re_compile re regex); [discriminate | reflexivity].
  - reflexivity.
Qed.

(** X3: the answer of [is_watched] depends on which entries the five rule
    lists have, not on their order or repetition. *)
Theorem is_watched_same_rules (re : ReEngine) (r r' : Configuration) (p : string) :
  same_rules r r' ->
  is_watched re r p = is_watched re r' p.
Proof.
  intros ([I1 I2] & [E1 E2] & [F1 F2] & [G1 G2] & [R1 R2]).
  rewrite !is_watched_eq. unfold decision.
  rewrite (forallb_same (compiles re) _ _ R1 R2).
  rewrite (existsb_same (PyStr.endswith p) _ _ I1 I2).
  rewrite (existsb_same (PyStr.endswith p) _ _ E1 E2).
  rewrite (existsb_same (PyStr.contains p) _ _ F1 F2).
  rewrite (existsb_same (PyStr.contains p) _ _ G1 G2).
  rewrite (existsb_same (regex_hits re p) _ _ R1 R2).
  reflexivity.
Qed.

Lemma is_watched_same_rules_witness :
  let r := sample_rules (sample_conf all_commands) in
  let r' := set_excluded_folders r ["build"; "node_modules"; "build"] in
  same_rules r r' /\
  is_watched Literal.engine r "build/app.js"
  = is_watched Literal.engine r' "build/app.js".
Proof.
  assert (H : same_rules (sample_rules (sample_conf all_commands))
                (set_excluded_folders (sample_rules (sample_conf all_commands))
                   ["build"; "node_modules"; "build"])).
  { repeat split; intros x Hx; simpl in *; tauto. }
  exact (conj H (is_watched_same_rules Literal.engine _ _ "build/app.js" H)).
Defined.

(** X4: an empty string among the excluded extensions, folders or files
    excludes every path: nothing is watched. *)
Theorem empty_exclusion_entry_excludes_all (re : ReEngine) (self : Configuration)
        (p : string) :
  In EmptyString (_excluded_extensions self) \/
  In EmptyString (_excluded_folders self) \/
  In EmptyString (_excluded_files self) ->
  is_watched re self p <> Ok true.
Proof.
  intros H Hw. apply is_watched_true_spec in Hw as (_ & _ & Hn). apply Hn.
  destruct H as [H | [H | H]].
  - left. exists EmptyString. split; [exact H | apply endswith_empty].
  - right; left. exists EmptyString. split; [exact H | apply contains_empty].
  - right; right; left. exists EmptyString. split; [exact H | apply contains_empty].
Qed.

Lemma empty_exclusion_entry_excludes_all_witness :
  let r := set_excluded_folders (sample_rules (sample_conf all_commands)) [EmptyString] in
  In EmptyString (_excluded_folders r) /\
  is_watched Literal.engine r "src/app.js" <> Ok true.
Proof.
  assert (H : In EmptyString
                (_excluded_folders
                   (set_excluded_folders (sample_rules (sample_conf all_commands))
                                         [EmptyString])))
    by (left; reflexivity).
  exact (conj H (empty_exclusion_entry_excludes_all Literal.engine _ "src/app.js"
                   (or_intror (or_introl H)))).
Defined.

(** X5: an excluded folder or file entry excludes by substring: a path
    with the entry anywhere in it, inside a file name as well, is not
    watched. *)
Theorem exclusion_entry_anywhere (re : ReEngine) (self : Configuration)
        (entry before after : string) :
  In entry (_excluded_folders self) \/ In entry (_excluded_files self) ->
  is_watched re self (before ++ entry ++ after) <> Ok true.
Proof.
  intros H Hw. apply is_watched_true_spec in Hw as (_ & _ & Hn). apply Hn.
  destruct H as [H | H].
  - right; left. exists entry. split; [exact H | apply contains_middle].
  - right; right; left. exists entry. split; [exact H | apply contains_middle].
Qed.

Lemma exclusion_entry_anywhere_witness :
  let r := sample_rules (sample_conf all_commands) in
  In "build" (_excluded_folders r) /\
  is_watched Literal.engine r ("src/re" ++ "build" ++ "er.js") <> Ok true.
Proof.
  assert (H : In "build" (_excluded_folders (sample_rules (sample_conf all_commands))))
    by (right; left; reflexivity).
  exact (conj H (exclusion_entry_anywhere Literal.engine _ "build" "src/re" "er.js"
                   (or_introl H))).
Defined.

Lemma Configuration_init_fields (conf : ConfigParser) (self : Configuration) :
  Configuration_init conf = Ok self ->
  self = {| _conf := conf;
            _excluded_regex := [];
            _excluded_extensions := [];
            _included_extensions := [];
            _excluded_files := [];
            _excluded_folders := ["node_modules"];
            _commands := ["build"; "serve"; "start"; "test"] |}.
Proof.
  unfold Configuration_init. intros H.
  repeat match type of H with
         | context [if ?b then _ else _] => destruct b; try discriminate
         end.
  injection H as <-. reflexivity.
Qed.

(** X6: a configuration as the constructor leaves it, before the options
    are parsed, watches no path. *)
Theorem constructed_watches_nothing (re : ReEngine) (conf : ConfigParser)
        (self : Configuration) (p : string) :
  Configuration_init conf = Ok self ->
  is_watched re self p = Ok false.
Proof.
  intros H. apply Configuration_init_fields in H. subst self.
  rewrite is_watched_eq. reflexivity.
Qed.

Lemma constructed_watches_nothing_witness :
  exists self,
    Configuration_init (sample_conf all_commands) = Ok self /\
    is_watched Literal.engine self "src/app.js" = Ok false.
Proof.
  eexists. split; [reflexivity|].
  apply (constructed_watches_nothing Literal.engine (sample_conf all_commands)).
  reflexivity.
Defined.

(** * More on the change handler *)

Lemma replace_absent (old new s : string) :
  PyStr.contains s old = false ->
  PyStr.replace s old new = s.
Proof.
  unfold PyStr.replace. induction s as [|c s IH]; intros H.
  - rewrite contains_unfold in H. cbn [PyStr.replace_from].
    destruct old; [discriminate | reflexivity].
  - rewrite contains_unfold in H. apply orb_false_iff in H as [Hp Hc].
    rewrite replace_from_miss by exact Hp. now rewrite IH.
Qed.

(** X7: the normalizer inverts the join of root and relative path when
    the root with its slash does not occur in the relative path: the
    path of [rel] below the root is normalized to [rel]. *)
Theorem normalize_join (abs_root rel : string) :
  PyStr.contains rel (abs_root ++ "/") = false ->
  normalize (abs_root ++ "/" ++ rel) abs_root = Ok rel.
Proof.
  intros H. unfold normalize.
  rewrite <- (append_assoc abs_root "/" rel).
  assert (Hc : PyStr.contains ((abs_root ++ "/") ++ rel) (abs_root ++ "/") = true)
    by (rewrite contains_unfold, prefix_append; reflexivity).
  rewrite Hc, replace_head.
  - now rewrite replace_absent.
  - destruct abs_root; discriminate.
Qed.

Lemma normalize_join_witness :
  PyStr.contains "src/app.js" ("/proj" ++ "/") = false /\
  normalize ("/proj" ++ "/" ++ "src/app.js") "/proj" = Ok "src/app.js".
Proof.
  split; [reflexivity|]. apply (normalize_join "/proj" "src/app.js"). reflexivity.
Defined.

Section MoreHandlerFacts.

Variable re : ReEngine.
Variable host : Host.
Variable self : ChangeHandler.

Lemma build_run (cmd : string) (w : world) :
  build_command (config self) = Ok cmd ->
  build host (config self) w = (Ok "Building", built host cmd w).
Proof.
  intros H. unfold build, bind, lift, print, ret, subprocess_run, built.
  rewrite H; simpl. destruct (nonempty cmd); simpl; rewrite ?H; simpl.
  - reflexivity.
  - now rewrite app_nil_r.
Qed.

Lemma watched_file_run (filepath rel cmd : string) (w : world) :
  isfile host filepath = true ->
  normalize filepath (abspath host (root self)) = Ok rel ->
  is_watched re (config self) rel = Ok true ->
  build_command (config self) = Ok cmd ->
  _build_if_watched re host self filepath w
  = (Ok tt, built host cmd {| stdout := stdout w ++ ["file " ++ rel ++ " is watched"];
                         spawned := spawned w |}).
Proof.
  intros Hf Hn Hw Hb. unfold _build_if_watched, bind, lift.
  rewrite Hf, Hn, Hw. unfold print at 1. cbn beta iota.
  now rewrite (build_run cmd _ Hb).
Qed.

(** X8: the creation or modification of a file that exists, lies below
    the root and is watched prints the event, prints that the file is
    watched and runs the build, once: the build command is handed to a
    shell when it is not empty. *)
Theorem watched_file_event_builds (filepath rel cmd : string) (w : world) :
  isfile host filepath = true ->
  normalize filepath (abspath host (root self)) = Ok rel ->
  is_watched re (config self) rel = Ok true ->
  build_command (config self) = Ok cmd ->
  let after (verb : string) :=
    {| stdout := stdout w ++ ["file " ++ filepath ++ verb;
                              "file " ++ rel ++ " is watched";
                              "Running build" ++ " " ++ cmd];
       spawned := spawned w ++
                  (if nonempty cmd
                   then [{| cp_args := ArgStr cmd;
                            returncode := exit_status host (ArgStr cmd) |}]
                   else []) |} in
  on_created re host self filepath w = (Ok tt, after " created") /\
  on_modified re host self filepath w = (Ok tt, after " modified").
Proof.
  intros Hf Hn Hw Hb after. subst after.
  split; unfold on_created, on_modified, bind; unfold print at 1; cbn beta iota;
    rewrite (watched_file_run filepath rel cmd _ Hf Hn Hw Hb);
    unfold built; cbn [stdout spawned]; rewrite <- !app_assoc; reflexivity.
Qed.

(** X9: an event for a file that exists and is not watched prints the
    event line and does nothing else. *)
Theorem unwatched_file_event_ignored (filepath rel : string) (w : world) :
  isfile host filepath = true ->
  normalize filepath (abspath host (root self)) = Ok rel ->
  is_watched re (config self) rel = Ok false ->
  on_modified re host self filepath w
  = (Ok tt, {| stdout := stdout w ++ ["file " ++ filepath ++ " modified"];
               spawned := spawned w |}).
Proof.
  intros Hf Hn Hw. unfold on_modified, _build_if_watched, bind, lift, print, ret.
  cbn beta iota. now rewrite Hf, Hn, Hw.
Qed.

(** X10: an event for an existing file whose path does not contain the
    root with its slash leaves the handler by the failed assertion;
    nothing is built. *)
Theorem event_outside_root_raises (filepath : string) (w : world) :
  isfile host filepath = true ->
  PyStr.contains filepath (abspath host (root self) ++ "/") = false ->
  _build_if_watched re host self filepath w = (Raise AssertionError, w).
Proof.
  intros Hf Hc. unfold _build_if_watched, bind, lift.
  now rewrite Hf, (normalize_outside _ _ Hc).
Qed.

(** X11: when an excluded pattern does not compile, every event for an
    existing file below the root raises [re.error], and nothing is
    built. *)
Theorem bad_pattern_breaks_events (filepath rel regex : string) (w : world) :
  isfile host filepath = true ->
  normalize filepath (abspath host (root self)) = Ok rel ->
  In regex (_excluded_regex (config self)) ->
  re_compile re regex = None ->
  _build_if_watched re host self filepath w = (Raise ReError, w).
Proof.
  intros Hf Hn Hin Hc. unfold _build_if_watched, bind, lift.
  rewrite Hf, Hn, is_watched_eq.
  assert (E : forallb (compiles re) (_excluded_regex (config self)) = false).
  { destruct (forallb _ _) eqn:E; [|reflexivity].
    rewrite forallb_forall in E. specialize (E regex Hin).
    unfold compiles in E. now rewrite Hc in E. }
  now rewrite E.
Qed.

(** X12: the three callbacks never run anything but the build command:
    after a callback the record of processes is the one before, or the
    one before with one run of the configured build command. *)
Theorem callbacks_spawn_only_build (callback : string -> M unit)
        (src_path : string) (w : world) :
  In callback (callbacks re host self) ->
  spawned (snd (callback src_path w)) = spawned w \/
  exists cmd,
    build_command (config self) = Ok cmd /\
    spawned (snd (callback src_path w))
    = (spawned w ++ [{| cp_args := ArgStr cmd;
                        returncode := exit_status host (ArgStr cmd) |}])%list.
Proof.
  intros Hin.
  assert (H : forall w0,
             spawned (snd (_build_if_watched re host self src_path w0)) = spawned w0 \/
             exists cmd,
               build_command (config self) = Ok cmd /\
               spawned (snd (_build_if_watched re host self src_path w0))
               = (spawned w0 ++ [{| cp_args := ArgStr cmd;
                                    returncode := exit_status host (ArgStr cmd) |}])%list).
  { intros w0.
    remember (_build_if_watched re host self src_path w0) as out eqn:Hout.
    unfold _build_if_watched, bind, lift in Hout.
    destruct (isfile host src_path); [|subst out; left; reflexivity].
    destruct (normalize _ _) as [rel|]; [|subst out; left; reflexivity].
    destruct (is_watched _ _ _) as [[|]|]; try (subst out; left; reflexivity).
    unfold print at 1 in Hout. cbn beta iota in Hout.
    destruct (build_command (config self)) as [cmd|e] eqn:Hb.
    - rewrite (build_run cmd _ Hb) in Hout. unfold built, ret in Hout.
      subst out. cbn [snd spawned stdout].
      destruct (nonempty cmd).
      + right. exists cmd. split; reflexivity.
      + left. apply app_nil_r.
    - subst out. left. unfold build, bind, lift. rewrite Hb. reflexivity. }
  unfold callbacks in Hin. simpl in Hin.
  destruct Hin as [<- | [<- | [<- | []]]];
    unfold on_created, on_modified, on_deleted, bind; unfold print at 1;
    cbn beta iota;
    match goal with
    | |- context [_build_if_watched _ _ _ _ ?w1] => exact (H w1)
    end.
Qed.

End MoreHandlerFacts.

Lemma watched_file_event_builds_witness :
  let host := sample_host 0 ["/proj/src/app.js"] in
  let handler := {| root := "."; config := sample_rules (sample_conf all_commands) |} in
  isfile host "/proj/src/app.js" = true /\
  normalize "/proj/src/app.js" (abspath host (root handler)) = Ok "src/app.js" /\
  is_watched Literal.engine (config handler) "src/app.js" = Ok true /\
  build_command (config handler) = Ok "npm run build" /\
  map cp_args
      (spawned (snd (on_created Literal.engine host handler "/proj/src/app.js" world0)))
  = [ArgStr "npm run build"].
Proof.
  set (host := sample_host 0 ["/proj/src/app.js"]).
  set (handler := {| root := "."; config := sample_rules (sample_conf all_commands) |}).
  assert (H1 : isfile host "/proj/src/app.js" = true) by reflexivity.
  assert (H2 : normalize "/proj/src/app.js" (abspath host (root handler))
               = Ok "src/app.js") by reflexivity.
  assert (H3 : is_watched Literal.engine (config handler) "src/app.js" = Ok true)
    by reflexivity.
  assert (H4 : build_command (config handler) = Ok "npm run build") by reflexivity.
  destruct (watched_file_event_builds Literal.engine host handler
              "/proj/src/app.js" "src/app.js" "npm run build" world0 H1 H2 H3 H4)
    as [Hc _].
  refine (conj H1 (conj H2 (conj H3 (conj H4 _)))).
  rewrite Hc. reflexivity.
Defined.

Lemma unwatched_file_event_ignored_witness :
  let host := sample_host 0 ["/proj/notes.pdf"] in
  let handler := {| root := "."; config := sample_rules (sample_conf all_commands) |} in
  isfile host "/proj/notes.pdf" = true /\
  normalize "/proj/notes.pdf" (abspath host (root handler)) = Ok "notes.pdf" /\
  is_watched Literal.engine (config handler) "notes.pdf" = Ok false /\
  on_modified Literal.engine host handler "/proj/notes.pdf" world0
  = (Ok tt, {| stdout := ["file /proj/notes.pdf modified"]; spawned := [] |}).
Proof.
  set (host := sample_host 0 ["/proj/notes.pdf"]).
  set (handler := {| root := "."; config := sample_rules (sample_conf all_commands) |}).
  assert (H1 : isfile host "/proj/notes.pdf" = true) by reflexivity.
  assert (H2 : normalize "/proj/notes.pdf" (abspath host (root handler))
               = Ok "notes.pdf") by reflexivity.
  assert (H3 : is_watched Literal.engine (config handler) "notes.pdf" = Ok false)
    by reflexivity.
  exact (conj H1 (conj H2 (conj H3
           (unwatched_file_event_ignored Literal.engine host handler
              "/proj/notes.pdf" "notes.pdf" world0 H1 H2 H3)))).
Defined.

Lemma event_outside_root_raises_witness :
  let host := sample_host 0 ["/other/x.js"] in
  let handler := {| root := "."; config := sample_rules (sample_conf all_commands) |} in
  isfile host "/other/x.js" = true /\
  PyStr.contains "/other/x.js" (abspath host (root handler) ++ "/") = false /\
  _build_if_watched Literal.engine host handler "/other/x.js" world0
  = (Raise AssertionError, world0).
Proof.
  set (host := sample_host 0 ["/other/x.js"]).
  set (handler := {| root := "."; config := sample_rules (sample_conf all_commands) |}).
  assert (H1 : isfile host "/other/x.js" = true) by reflexivity.
  assert (H2 : PyStr.contains "/other/x.js" (abspath host (root handler) ++ "/") = false)
    by reflexivity.
  exact (conj H1 (conj H2
           (event_outside_root_raises Literal.engine host handler
              "/other/x.js" world0 H1 H2))).
Defined.

Lemma bad_pattern_breaks_events_witness :
  let host := sample_host 0 ["/proj/src/app.js"] in
  let handler :=
    {| root := ".";
       config := set_excluded_regex (sample_rules (sample_conf all_commands))
                                    ["*.min.js"] |} in
  isfile host "/proj/src/app.js" = true /\
  normalize "/proj/src/app.js" (abspath host (root handler)) = Ok "src/app.js" /\
  In "*.min.js" (_excluded_regex (config handler)) /\
  re_compile Literal.engine "*.min.js" = None /\
  _build_if_watched Literal.engine host handler "/proj/src/app.js" world0
  = (Raise ReError, world0).
Proof.
  set (host := sample_host 0 ["/proj/src/app.js"]).
  set (handler :=
         {| root := ".";
            config := set_excluded_regex (sample_rules (sample_conf all_commands))
                                         ["*.min.js"] |}).
  assert (H1 : isfile host "/proj/src/app.js" = true) by reflexivity.
  assert (H2 : normalize "/proj/src/app.js" (abspath host (root handler))
               = Ok "src/app.js") by reflexivity.
  assert (H3 : In "*.min.js" (_excluded_regex (config handler)))
    by (left; reflexivity).
  assert (H4 : re_compile Literal.engine "*.min.js" = None) by reflexivity.
  exact (conj H1 (conj H2 (conj H3 (conj H4
           (bad_pattern_breaks_events Literal.engine host handler
              "/proj/src/app.js" "src/app.js" "*.min.js" world0 H1 H2 H3 H4))))).
Defined.

Lemma callbacks_spawn_only_build_witness :
  let host := sample_host 0 ["/proj/src/app.js"] in
  let handler := {| root := "."; config := sample_rules (sample_conf all_commands) |} in
  let callback := on_modified Literal.engine host handler in
  In callback (callbacks Literal.engine host handler) /\
  (spawned (snd (callback "/proj/src/app.js" world0)) = spawned world0 \/
   exists cmd,
     build_command (config handler) = Ok cmd /\
     spawned (snd (callback "/proj/src/app.js" world0))
     = (spawned world0 ++ [{| cp_args := ArgStr cmd;
                              returncode := exit_status host (ArgStr cmd) |}])%list).
Proof.
  set (host := sample_host 0 ["/proj/src/app.js"]).
  set (handler := {| root := "."; config := sample_rules (sample_conf all_commands) |}).
  assert (H : In (on_modified Literal.engine host handler)
                 (callbacks Literal.engine host handler))
    by (right; left; reflexivity).
  exact (conj H (callbacks_spawn_only_build Literal.engine host handler _
                   "/proj/src/app.js" world0 H)).
Defined.

(** * More on the dispatcher *)



(** X14: when [shlex.split] rejects the non-empty command of [test],
    [run] or [start], the action prints its line, raises [ValueError] and
    spawns nothing. *)
Theorem unsplittable_command_raises (host : Host) (config : Configuration)
        (a : action) (cmd : string) (w : world) :
  In a [Test; Run; Start] ->
  command_of config a = Ok cmd ->
  nonempty cmd = true ->
  shlex_split host cmd = None ->
  fst (trigger host config a w) = Raise ValueError /\
  spawned (snd (trigger host config a w)) = spawned w.
Proof.
  intros Ha Hc Hn Hs. simpl in Ha.
  destruct Ha as [<- | [<- | [<- | []]]];
    unfold_actions; cbn beta iota; rewrite Hc; cbn beta iota;
    rewrite Hn; cbn beta iota; rewrite Hs; split; reflexivity.
Qed.

Lemma unsplittable_command_raises_witness :
  let config :=
    sample_rules (sample_conf [("build", "npm run build"); ("serve", "npm run serve");
                               ("start", "npm start");
                               ("test", "npm test -- -t 'unit")]) in
  let host := sample_host 0 [] in
  In Test [Test; Run; Start] /\
  command_of config Test = Ok "npm test -- -t 'unit" /\
  nonempty "npm test -- -t 'unit" = true /\
  shlex_split host "npm test -- -t 'unit" = None /\
  fst (trigger host config Test world0) = Raise ValueError /\
  spawned (snd (trigger host config Test world0)) = spawned world0.
Proof.
  set (config :=
         sample_rules (sample_conf [("build", "npm run build"); ("serve", "npm run serve");
                                    ("start", "npm start");
                                    ("test", "npm test -- -t 'unit")])).
  set (host := sample_host 0 []).
  assert (H1 : In Test [Test; Run; Start]) by (left; reflexivity).
  assert (H2 : command_of config Test = Ok "npm test -- -t 'unit") by reflexivity.
  assert (H3 : nonempty "npm test -- -t 'unit" = true) by reflexivity.
  assert (H4 : shlex_split host "npm test -- -t 'unit" = None) by reflexivity.
  exact (conj H1 (conj H2 (conj H3 (conj H4
           (unsplittable_command_raises host config Test _ world0 H1 H2 H3 H4))))).
Defined.

(** X15: the constructor does not look for the port: a file with a
    [server] section and no [port] in it is accepted, and reading
    [server_port] then raises [KeyError]. *)
Theorem missing_port_accepted (conf : ConfigParser) (self : Configuration) :
  Configuration_init conf = Ok self ->
  has_option conf "server" "port" = false ->
  server_port self = Raise (KeyError "port").
Proof.
  intros Hi Hp.
  destruct (proj1 (Configuration_init_ok conf) (ex_intro _ self Hi)) as (_ & Hs & _).
  apply Configuration_init_fields in Hi. subst self.
  unfold server_port, conf_get; cbn [_conf]. rewrite Hs.
  unfold conf_contains, has_section in Hs. simpl in Hs.
  unfold has_option in Hp.
  destruct (cp_sections conf !! "server") as [d|]; [|discriminate].
  destruct (d !! "port"); [discriminate|].
  destruct (cp_defaults conf !! "port"); [discriminate | reflexivity].
Qed.

Lemma missing_port_accepted_witness :
  let conf :=
    {| cp_defaults := ∅;
       cp_sections := list_to_map [("commands", section_of all_commands);
                                   ("server", section_of [("host", "127.0.0.1")])] |} in
  exists self,
    Configuration_init conf = Ok self /\
    has_option conf "server" "port" = false /\
    server_port self = Raise (KeyError "port").
Proof.
  intros conf. eexists. split; [reflexivity|]. split; [reflexivity|].
  apply (missing_port_accepted conf); reflexivity.
Defined.

(** X16: a trigger runs at most one process: after it the record of
    processes is the one before, or the one before with one process
    whose status is the one the shell gave. *)
Theorem trigger_spawns_at_most_one (host : Host) (config : Configuration)
        (a : action) (w : world) :
  spawned (snd (trigger host config a w)) = spawned w \/
  exists args,
    spawned (snd (trigger host config a w))
    = (spawned w ++ [{| cp_args := args; returncode := exit_status host args |}])%list.
Proof.
  remember (trigger host config a w) as out eqn:Hout.
  destruct a; unfold_actions; simpl in Hout; case_command Hout; subst out; simpl;
    solve [left; reflexivity | right; eexists; reflexivity].
Qed.

(** * The options *)

Lemma nonempty_false (s : string) : nonempty s = false <-> s = EmptyString.
Proof. destruct s; simpl; split; congruence. Qed.

Lemma set_difference_In (l1 l2 : list string) (x : string) :
  In x (set_difference l1 l2) <-> In x l1 /\ ~ In x l2.
Proof.
  unfold set_difference.
  rewrite <- !list_elem_of_In, elem_of_elements, elem_of_difference,
    !elem_of_list_to_set. reflexivity.
Qed.

(** The rule lists that [parse_options] leaves, option by option. *)
Lemma parse_options_rules (str_of_list : list string -> string)
      (args : Args.Namespace) (config : Configuration) (w : world) :
  exists c f w',
    parse_options str_of_list args config w = (Ok (c, f), w') /\
    _excluded_regex c
    = (if nonempty (Args.exclude_filters args)
       then PyText.split (Args.exclude_filters args) ","%char
       else _excluded_regex config) /\
    _included_extensions c
    = (if nonempty (Args.inclusions args)
       then List.filter (fun v => PyStr.startswith v ".")
                   (PyText.split (Args.inclusions args) ","%char)
       else _included_extensions config) /\
    _excluded_files c
    = (if nonempty (Args.inclusions args) && nonempty (Args.excluded_files args)
       then PyText.split (Args.excluded_files args) ","%char
       else _excluded_files config) /\
    _excluded_extensions c
    = (if nonempty (Args.exclusions args)
       then List.filter (fun v => PyStr.startswith v ".")
                   (PyText.split (Args.exclusions args) ","%char)
       else _excluded_extensions config) /\
    _excluded_folders c
    = (if nonempty (Args.exclusions args)
       then set_difference
              (PyText.split (Args.exclusions args) ","%char)
              (List.filter (fun v => PyStr.startswith v ".")
                      (PyText.split (Args.exclusions args) ","%char))
       else _excluded_folders config).
Proof.
  unfold parse_options, bind, ret, print.
  destruct (nonempty (Args.exclude_filters args)),
           (nonempty (Args.inclusions args)),
           (nonempty (Args.excluded_files args)),
           (nonempty (Args.exclusions args));
    cbn beta iota; do 3 eexists; (split; [reflexivity|]);
    repeat split; reflexivity.
Qed.

Lemma parse_options_inv (str_of_list : list string -> string)
      (args : Args.Namespace) (config c : Configuration) (f : Flags) (w w' : world) :
  parse_options str_of_list args config w = (Ok (c, f), w') ->
  _included_extensions c
  = (if nonempty (Args.inclusions args)
     then List.filter (fun v => PyStr.startswith v ".")
                 (PyText.split (Args.inclusions args) ","%char)
     else _included_extensions config) /\
  _excluded_files c
  = (if nonempty (Args.inclusions args) && nonempty (Args.excluded_files args)
     then PyText.split (Args.excluded_files args) ","%char
     else _excluded_files config) /\
  _excluded_extensions c
  = (if nonempty (Args.exclusions args)
     then List.filter (fun v => PyStr.startswith v ".")
                 (PyText.split (Args.exclusions args) ","%char)
     else _excluded_extensions config) /\
  _excluded_folders c
  = (if nonempty (Args.exclusions args)
     then set_difference
            (PyText.split (Args.exclusions args) ","%char)
            (List.filter (fun v => PyStr.startswith v ".")
                    (PyText.split (Args.exclusions args) ","%char))
     else _excluded_folders config).
Proof.
  intros H.
  destruct (parse_options_rules str_of_list args config w)
    as (c0 & f0 & w0 & H0 & _ & H2 & H3 & H4 & H5).
  rewrite H0 in H. injection H as -> -> ->. auto.
Qed.

Lemma excluded_folders_parsed (str_of_list : list string -> string)
      (args : Args.Namespace) (config c : Configuration) (f : Flags) (w w' : world)
      (t : string) :
  parse_options str_of_list args config w = (Ok (c, f), w') ->
  nonempty (Args.exclusions args) = true ->
  In t (_excluded_folders c) <->
  In t (PyText.split (Args.exclusions args) ","%char) /\ PyStr.startswith t "." = false.
Proof.
  intros H Hn. apply parse_options_inv in H as (_ & _ & _ & H).
  rewrite H, Hn, set_difference_In, filter_In. split.
  - intros [Hin Hno]. split; [exact Hin|].
    destruct (PyStr.startswith t "."); [|reflexivity]. exfalso; apply Hno; auto.
  - intros [Hin Hd]. split; [exact Hin|]. intros [_ Hd']. congruence.
Qed.

(** X17: a non-empty exclude option replaces both lists, and the leading
    dot decides where a token goes: the excluded extensions are the
    tokens that start with a dot, the excluded folders are the others. *)
Theorem exclude_option_split_by_dot (str_of_list : list string -> string)
        (args : Args.Namespace) (config c : Configuration) (f : Flags)
        (w w' : world) (t : string) :
  parse_options str_of_list args config w = (Ok (c, f), w') ->
  Args.exclusions args <> EmptyString ->
  (In t (_excluded_extensions c) <->
   In t (PyText.split (Args.exclusions args) ","%char) /\
   PyStr.startswith t "." = true) /\
  (In t (_excluded_folders c) <->
   In t (PyText.split (Args.exclusions args) ","%char) /\
   PyStr.startswith t "." = false).
Proof.
  intros H Hne.
  assert (Hn : nonempty (Args.exclusions args) = true)
    by (destruct (Args.exclusions args); [congruence | reflexivity]).
  split.
  - apply parse_options_inv in H as (_ & _ & H & _).
    rewrite H, Hn, filter_In. reflexivity.
  - eapply excluded_folders_parsed; eauto.
Qed.

Lemma exclude_option_split_by_dot_witness :
  let config := sample_rules (sample_conf all_commands) in
  let out := parse_options sample_str_of_list Args.defaults config world0 in
  exists c f,
    out = (Ok (c, f), snd out) /\
    Args.exclusions Args.defaults <> EmptyString /\
    (In "node_modules" (_excluded_folders c) <->
     In "node_modules" (PyText.split (Args.exclusions Args.defaults) ","%char) /\
     PyStr.startswith "node_modules" "." = false).
Proof.
  intros config out.
  destruct (parse_options_rules sample_str_of_list Args.defaults config world0)
    as (c & f & w' & H & _).
  exists c, f.
  assert (H' : out = (Ok (c, f), snd out)) by (unfold out; now rewrite H).
  assert (Hne : Args.exclusions Args.defaults <> EmptyString) by discriminate.
  split; [exact H'|]. split; [exact Hne|].
  exact (proj2 (exclude_option_split_by_dot sample_str_of_list Args.defaults
                  config c f world0 (snd out) "node_modules" H' Hne)).
Defined.

(** The last piece of a string that ends with the separator is empty. *)
Lemma split_trailing (sep : ascii) (s cur : string) :
  In EmptyString (PyText.split_from sep (s ++ String sep EmptyString) cur).
Proof.
  revert cur; induction s as [|c s IH]; intros cur.
  - change (EmptyString ++ String sep EmptyString) with (String sep EmptyString).
    cbn [PyText.split_from]. rewrite Ascii.eqb_refl. right; left; reflexivity.
  - change (String c s ++ String sep EmptyString)
      with (String c (s ++ String sep EmptyString)).
    cbn [PyText.split_from]. destruct (Ascii.eqb c sep).
    + right. apply IH.
    + apply IH.
Qed.

(** X18: an exclude option that ends with a comma has an empty token,
    which becomes an excluded folder and is in every path: after
    [parse_options] no path is watched. *)
Theorem trailing_comma_excludes_all (str_of_list : list string -> string)
        (args : Args.Namespace) (config c : Configuration) (f : Flags)
        (w w' : world) (e : string) (re : ReEngine) (p : string) :
  parse_options str_of_list args config w = (Ok (c, f), w') ->
  Args.exclusions args = e ++ "," ->
  is_watched re c p <> Ok true.
Proof.
  intros H He Hw.
  assert (Hn : nonempty (Args.exclusions args) = true)
    by (rewrite He; destruct e; reflexivity).
  assert (Hin : In EmptyString (_excluded_folders c)).
  { apply (excluded_folders_parsed _ _ _ _ _ _ _ EmptyString H Hn).
    split; [|reflexivity]. rewrite He. apply split_trailing. }
  apply is_watched_true_spec in Hw as (_ & _ & Hx). apply Hx.
  right; left. exists EmptyString. split; [exact Hin | apply contains_empty].
Qed.

Lemma trailing_comma_excludes_all_witness :
  let args :=
    {| Args.watchdog := "True"; Args.exclusions := ".pdf,build,";
       Args.exclude_filters := "#,~"; Args.excluded_files := "";
       Args.inclusions := ".js"; Args.live_server := false |} in
  let config := sample_rules (sample_conf all_commands) in
  let out := parse_options sample_str_of_list args config world0 in
  exists c f,
    out = (Ok (c, f), snd out) /\
    Args.exclusions args = ".pdf,build" ++ "," /\
    is_watched Literal.engine c "src/app.js" <> Ok true.
Proof.
  intros args config out.
  destruct (parse_options_rules sample_str_of_list args config world0)
    as (c & f & w' & H & _).
  exists c, f.
  assert (H' : out = (Ok (c, f), snd out)) by (unfold out; now rewrite H).
  assert (He : Args.exclusions args = ".pdf,build" ++ ",") by reflexivity.
  exact (conj H' (conj He
           (trailing_comma_excludes_all sample_str_of_list args config c f
              world0 (snd out) ".pdf,build" Literal.engine "src/app.js" H' He))).
Defined.

(** X19: the excluded folder [node_modules] of the constructor survives
    [parse_options] exactly when the exclude option is empty or lists
    it: any other exclude option drops it. *)
Theorem node_modules_default_kept_iff (str_of_list : list string -> string)
        (conf : ConfigParser) (args : Args.Namespace)
        (config c : Configuration) (f : Flags) (w w' : world) :
  Configuration_init conf = Ok config ->
  parse_options str_of_list args config w = (Ok (c, f), w') ->
  In "node_modules" (_excluded_folders c) <->
  Args.exclusions args = EmptyString \/
  In "node_modules" (PyText.split (Args.exclusions args) ","%char).
Proof.
  intros Hi H. apply Configuration_init_fields in Hi.
  destruct (nonempty (Args.exclusions args)) eqn:Hn.
  - rewrite (excluded_folders_parsed _ _ _ _ _ _ _ "node_modules" H Hn). split.
    + intros [Hin _]. right; exact Hin.
    + intros [He | Hin]; [rewrite He in Hn; discriminate|].
      split; [exact Hin | reflexivity].
  - apply parse_options_inv in H as (_ & _ & _ & H).
    rewrite H, Hn, Hi. cbn [_excluded_folders]. split.
    + intros _. left. now apply nonempty_false.
    + intros _. left; reflexivity.
Qed.

Lemma node_modules_default_kept_iff_witness :
  let args :=
    {| Args.watchdog := "True"; Args.exclusions := ".pdf,build";
       Args.exclude_filters := "#,~"; Args.excluded_files := "";
       Args.inclusions := ".js"; Args.live_server := false |} in
  exists config c f w',
    Configuration_init (sample_conf all_commands) = Ok config /\
    parse_options sample_str_of_list args config world0 = (Ok (c, f), w') /\
    ~ In "node_modules" (_excluded_folders c) /\
    is_watched Literal.engine c "node_modules/lib/index.js" = Ok true.
Proof.
  intros args.
  destruct (Configuration_init (sample_conf all_commands)) as [config|] eqn:Hi;
    [|exfalso; vm_compute in Hi; discriminate].
  destruct (parse_options_rules sample_str_of_list args config world0)
    as (c & f & w' & H & _).
  exists config, c, f, w'.
  split; [reflexivity|]. split; [exact H|].
  pose proof (node_modules_default_kept_iff sample_str_of_list
                (sample_conf all_commands) args config c f world0 w' Hi H) as Hiff.
  split.
  - intros Hin. apply Hiff in Hin as [He | Hin]; [discriminate|].
    vm_compute in Hin. intuition discriminate.
  - apply Configuration_init_fields in Hi. subst config.
    vm_compute in H. injection H as <- _ _. reflexivity.
Defined.

(** X20: with an empty include option the exclude-files option is not
    read, the list of included extensions stays the empty one of the
    constructor, and no path is watched. *)
Theorem empty_include_option_watches_nothing (str_of_list : list string -> string)
        (conf : ConfigParser) (args : Args.Namespace)
        (config c : Configuration) (f : Flags) (w w' : world)
        (re : ReEngine) (p : string) :
  Configuration_init conf = Ok config ->
  parse_options str_of_list args config w = (Ok (c, f), w') ->
  Args.inclusions args = EmptyString ->
  _excluded_files c = [] /\ is_watched re c p <> Ok true.
Proof.
  intros Hi H He. apply Configuration_init_fields in Hi.
  apply parse_options_inv in H as (H1 & H2 & _).
  rewrite He in H1, H2. cbn in H1, H2. rewrite Hi in H1, H2. cbn in H1, H2.
  split; [exact H2|].
  intros Hw. apply is_watched_true_spec in Hw as (_ & [x [Hin _]] & _).
  rewrite H1 in Hin. exact Hin.
Qed.

Lemma empty_include_option_watches_nothing_witness :
  let args :=
    {| Args.watchdog := "True"; Args.exclusions := ".pdf,build";
       Args.exclude_filters := "#,~"; Args.excluded_files := "secret.js";
       Args.inclusions := ""; Args.live_server := false |} in
  exists config c f w',
    Configuration_init (sample_conf all_commands) = Ok config /\
    parse_options sample_str_of_list args config world0 = (Ok (c, f), w') /\
    Args.inclusions args = EmptyString /\
    _excluded_files c = [] /\
    is_watched Literal.engine c "src/app.js" <> Ok true.
Proof.
  intros args.
  destruct (Configuration_init (sample_conf all_commands)) as [config|] eqn:Hi;
    [|exfalso; vm_compute in Hi; discriminate].
  destruct (parse_options_rules sample_str_of_list args config world0)
    as (c & f & w' & H & _).
  exists config, c, f, w'.
  exact (conj eq_refl (conj H (conj eq_refl
           (empty_include_option_watches_nothing sample_str_of_list
              (sample_conf all_commands) args config c f world0 w'
              Literal.engine "src/app.js" Hi H eq_refl)))).
Defined.

(** * The enumeration of the watched files *)


Lemma filter_r_total {A} (f : A -> result bool) (g : A -> bool) (l : list A) :
  (forall x, f x = Ok (g x)) ->
  filter_r f l = Ok (List.filter g l).
Proof.
  intros H. induction l as [|y l IH]; simpl; [reflexivity|].
  rewrite H, IH. simpl. destruct (g y); reflexivity.
Qed.



Lemma length_append (a b : string) :
  String.length (a ++ b) = String.length a + String.length b.
Proof. induction a as [|c a IH]; simpl; [reflexivity | now rewrite IH]. Qed.

Lemma append_cancel_r (x y s : string) : x ++ s = y ++ s -> x = y.
Proof.
  revert y; induction x as [|c x IH]; intros [|d y] H; simpl in H.
  - reflexivity.
  - apply (f_equal String.length) in H. simpl in H.
    rewrite length_append in H. lia.
  - apply (f_equal String.length) in H. simpl in H.
    rewrite length_append in H. lia.
  - injection H as -> H. f_equal. apply IH, H.
Qed.

Lemma below_contains (x f : string) :
  PyStr.startswith f (x ++ "/") = true -> PyStr.contains f x = true.
Proof.
  unfold PyStr.startswith. intros H. apply prefix_split in H as [v ->].
  rewrite append_assoc.
  exact (contains_middle EmptyString x ("/" ++ v)).
Qed.

Lemma filter_none {A} (g : A -> bool) (l : list A) :
  (forall x, In x l -> g x = false) -> List.filter g l = [].
Proof.
  induction l as [|y l IH]; intros H; simpl; [reflexivity|].
  rewrite (H y) by (left; reflexivity). apply IH. intros x Hx. apply H. now right.
Qed.

Lemma filter_candidates (re : ReEngine) (tree : Tree) (self : Configuration)
      (folders acc : list string) :
  glob_below tree ->
  List.filter (decision re self)
    (fold_left
       (fun all_files x =>
          if negb (existsb (String.eqb x) (_excluded_folders self))
          then (all_files ++ glob tree (x ++ "/**"))%list
          else all_files)
       folders acc)
  = (List.filter (decision re self) acc ++
     List.filter (decision re self)
       (concat (map (fun x => glob tree (x ++ "/**")) folders)))%list.
Proof.
  intros Hg. revert acc; induction folders as [|x folders IH]; intros acc; simpl.
  - now rewrite app_nil_r.
  - rewrite IH. destruct (existsb (String.eqb x) (_excluded_folders self)) eqn:E; simpl.
    + rewrite List.filter_app.
      assert (Hx : List.filter (decision re self) (glob tree (x ++ "/**")) = []).
      { apply filter_none. intros f Hf.
        apply existsb_exists in E as [y [Hy Heq]].
        apply String.eqb_eq in Heq. subst y.
        unfold decision.
        assert (Ec : existsb (PyStr.contains f) (_excluded_folders self) = true).
        { apply existsb_exists. exists x. split; [exact Hy|].
          apply below_contains, Hg, Hf. }
        rewrite Ec. simpl. now rewrite andb_false_r. }
      now rewrite Hx.
    + now rewrite !List.filter_app, app_assoc.
Qed.

(** X22: skipping the excluded folders of the first level changes
    nothing: when the patterns compile and [glob] lists paths below the
    folder it is asked for, [get_watched] returns what filtering
    everything found would return. *)
Theorem get_watched_skip_is_shortcut (re : ReEngine) (host : Host) (tree : Tree)
        (self : Configuration) :
  patterns_compile re self ->
  glob_below tree ->
  get_watched re host tree self
  = filter_r (is_watched re self) (all_found host tree).
Proof.
  intros Hc Hg. unfold get_watched.
  assert (Hw : forall x, is_watched re self x = Ok (decision re self x)).
  { intros x. rewrite is_watched_eq. unfold patterns_compile in Hc. now rewrite Hc. }
  rewrite !(filter_r_total _ _ _ Hw). f_equal.
  unfold candidate_files, all_found.
  now rewrite filter_candidates, List.filter_app.
Qed.

Lemma get_watched_skip_is_shortcut_witness :
  let config := sample_rules (sample_conf all_commands) in
  patterns_compile Literal.engine config /\
  glob_below sample_tree /\
  get_watched Literal.engine sample_tree_host sample_tree config
  = filter_r (is_watched Literal.engine config)
             (all_found sample_tree_host sample_tree).
Proof.
  set (config := sample_rules (sample_conf all_commands)).
  assert (Hc : patterns_compile Literal.engine config) by reflexivity.
  assert (Hg : glob_below sample_tree).
  { intros x f Hf. unfold sample_tree in Hf. cbn [glob] in Hf.
    destruct (String.eqb (x ++ "/**") "src/**") eqn:E1.
    - apply String.eqb_eq in E1. apply (append_cancel_r x "src" "/**") in E1.
      subst x. simpl in Hf.
      repeat (destruct Hf as [<- | Hf]; [reflexivity|]). destruct Hf.
    - destruct (String.eqb (x ++ "/**") "build/**") eqn:E2; [|destruct Hf].
      apply String.eqb_eq in E2. apply (append_cancel_r x "build" "/**") in E2.
      subst x. simpl in Hf.
      repeat (destruct Hf as [<- | Hf]; [reflexivity|]). destruct Hf. }
  exact (conj Hc (conj Hg
           (get_watched_skip_is_shortcut Literal.engine sample_tree_host
              sample_tree config Hc Hg))).
Defined.

(** * which *)

Section WhichFacts.

Variable host : Host.
Variable os : Os.

Lemma which_in_sound (program : string) (paths : list string) (exe : string) :
  which_in host os program paths = Some exe -> is_exe host os exe = true.
Proof.
  induction paths as [|path paths IH]; simpl; [discriminate|].
  destruct (is_exe host os (os_path_join os (PyText.strip path "034") program)) eqn:E.
  - intros H; injection H as <-. exact E.
  - exact IH.
Qed.

Lemma which_in_none (program : string) (paths : list string) :
  which_in host os program paths = None <->
  forall path, In path paths ->
    is_exe host os (os_path_join os (PyText.strip path "034") program) = false.
Proof.
  induction paths as [|path paths IH]; simpl.
  - split; [intros _ ? [] | reflexivity].
  - destruct (is_exe host os (os_path_join os (PyText.strip path "034") program)) eqn:E.
    + split; [discriminate|]. intros H. rewrite (H path) in E by auto. discriminate.
    + rewrite IH. split.
      * intros H p [<- | Hp]; auto.
      * intros H p Hp. apply H. now right.
Qed.

(** X23: [which] only ever answers with a path that is a file and may
    be executed. *)
Theorem which_finds_executables (program exe : string) :
  which host os program = Ok (Some exe) ->
  isfile host exe = true /\ os_access_x os exe = true.
Proof.
  unfold which. destruct (os_path_split os program) as [fpath fname].
  intros H. apply andb_true_iff. fold (is_exe host os exe).
  destruct (nonempty fpath).
  - destruct (is_exe host os program) eqn:E; [|discriminate].
    injection H as <-. exact E.
  - destruct (environ_PATH os) as [PATH|]; [|discriminate].
    injection H as H. eapply which_in_sound; eauto.
Qed.

(** X24: for a program name without a directory part, [which] answers
    [None] exactly when no entry of [PATH], its surrounding double
    quotes removed, joined with the name is an executable file. *)
Theorem which_none_iff (program PATH : string) :
  fst (os_path_split os program) = EmptyString ->
  environ_PATH os = Some PATH ->
  which host os program = Ok None <->
  forall path, In path (PyText.split PATH pathsep) ->
    is_exe host os (os_path_join os (PyText.strip path "034") program) = false.
Proof.
  intros Hs Hp. unfold which.
  destruct (os_path_split os program) as [fpath fname]. simpl in Hs. subst fpath.
  cbn [nonempty]. rewrite Hp, <- which_in_none. split.
  - intros H; now injection H.
  - intros ->; reflexivity.
Qed.

(** X25: [which] raises exactly when the program name has no directory
    part and [PATH] is not set, and then with [KeyError]. *)
Theorem which_raises_iff (program : string) (e : pyexn) :
  which host os program = Raise e <->
  fst (os_path_split os program) = EmptyString /\
  environ_PATH os = None /\ e = KeyError "PATH".
Proof.
  unfold which. destruct (os_path_split os program) as [fpath fname]. simpl.
  destruct fpath as [|c fpath]; cbn [nonempty].
  - destruct (environ_PATH os); split.
    + discriminate.
    + intros (_ & H & _); discriminate.
    + intros H; injection H as <-. auto.
    + intros (_ & _ & ->); reflexivity.
  - destruct (is_exe host os program); split;
      try discriminate; intros (H & _); discriminate.
Qed.

End WhichFacts.

Lemma which_finds_executables_witness :
  let host := sample_host 0 ["/usr/bin/npm"] in
  let os := sample_os (Some "/bin:/usr/bin") ["/usr/bin/npm"] in
  which host os "npm" = Ok (Some "/usr/bin/npm") /\
  isfile host "/usr/bin/npm" = true /\ os_access_x os "/usr/bin/npm" = true.
Proof.
  set (host := sample_host 0 ["/usr/bin/npm"]).
  set (os := sample_os (Some "/bin:/usr/bin") ["/usr/bin/npm"]).
  assert (H : which host os "npm" = Ok (Some "/usr/bin/npm")) by reflexivity.
  exact (conj H (which_finds_executables host os "npm" "/usr/bin/npm" H)).
Defined.

Lemma which_none_iff_witness :
  let host := sample_host 0 ["/usr/bin/node"] in
  let os := sample_os (Some "/bin:/usr/bin") ["/usr/bin/node"] in
  fst (os_path_split os "npm") = EmptyString /\
  environ_PATH os = Some "/bin:/usr/bin" /\
  which host os "npm" = Ok None.
Proof.
  set (host := sample_host 0 ["/usr/bin/node"]).
  set (os := sample_os (Some "/bin:/usr/bin") ["/usr/bin/node"]).
  assert (H1 : fst (os_path_split os "npm") = EmptyString) by reflexivity.
  assert (H2 : environ_PATH os = Some "/bin:/usr/bin") by reflexivity.
  refine (conj H1 (conj H2 _)).
  apply (which_none_iff host os "npm" "/bin:/usr/bin" H1 H2).
  intros path Hp. simpl in Hp.
  destruct Hp as [<- | [<- | []]]; reflexivity.
Defined.

(** * Singleton *)

(** X26: once [Instance] has returned, every later call returns the same
    instance and does not run the decorated constructor again: the world
    stays as it is. *)
Theorem Instance_once {A} (self self' : Singleton A) (inst : A) (w w' w2 : world) :
  Instance self w = (Ok (inst, self'), w') ->
  Instance self' w2 = (Ok (inst, self'), w2).
Proof.
  unfold Instance, bind, ret. destruct (_instance self) as [i|] eqn:E.
  - intros H; injection H as -> -> _. now rewrite E.
  - destruct (_decorated self w) as [[i|e] w1]; [|discriminate].
    intros H; injection H as -> <- _. reflexivity.
Qed.

Lemma Instance_once_witness :
  let self := {| _decorated := print "constructed" ;;; ret 7; _instance := None |} in
  let first := Instance self world0 in
  exists self',
    first = (Ok (7, self'), {| stdout := ["constructed"]; spawned := [] |}) /\
    Instance self' (snd first) = (Ok (7, self'), snd first).
Proof.
  intros self first. eexists.
  assert (H : first = (Ok (7, {| _decorated := _decorated self; _instance := Some 7 |}),
                       {| stdout := ["constructed"]; spawned := [] |}))
    by reflexivity.
  split; [exact H|].
  exact (Instance_once self _ 7 world0 _ (snd first) H).
Defined.

(** * The configuration file, once more *)

(** X27: the constructor accepts a configuration file exactly when it has
    a [commands] section and a [server] section and each of [build],
    [serve], [start] and [test] is a key of [commands] or of the default
    section. *)
Theorem construction_succeeds_iff (conf : ConfigParser) :
  (exists self, Configuration_init conf = Ok self) <->
  exists commands,
    cp_sections conf !! "commands" = Some commands /\
    cp_sections conf !! "server" <> None /\
    forall c, In c ["build"; "serve"; "start"; "test"] ->
              commands !! c <> None \/ cp_defaults conf !! c <> None.
Proof.
  rewrite Configuration_init_ok.
  unfold conf_contains, has_section, has_option. simpl.
  destruct (cp_sections conf !! "commands") as [d|]; split.
  - intros (_ & Hs & Hk). exists d. split; [reflexivity|]. split.
    + destruct (cp_sections conf !! "server"); [discriminate | discriminate Hs].
    + intros c Hc. specialize (Hk c Hc).
      destruct (d !! c); [left; discriminate|].
      destruct (cp_defaults conf !! c); [right; discriminate | discriminate Hk].
  - intros (d' & Hd & Hs & Hk). injection Hd as <-.
    split; [reflexivity|]. split.
    + destruct (cp_sections conf !! "server"); [reflexivity | congruence].
    + intros c Hc. destruct (Hk c Hc) as [H | H].
      * destruct (d !! c); [reflexivity | congruence].
      * destruct (d !! c); [reflexivity|].
        destruct (cp_defaults conf !! c); [reflexivity | congruence].
  - intros (H & _); discriminate.
  - intros (d' & Hd & _); discriminate.
Qed.
